(** * nirspec_resolution: line catalogue and line-profile fitting engine

    A shallow embedding of [spec_slice.py] (the catalogue of line groups per
    disperser and mode) and of [util.py] (line shapes, pixel integration, the
    weighted linear solver and the segment cut), with the properties of the
    specification stated over them.

    Conventions of the embedding.
    - A Python [float] and a numpy float array are a real number and a list of
      real numbers: arithmetic is the exact arithmetic the floating-point
      operations approximate.  The catalogue's literals are exact decimal
      rationals.
    - A Python [str] is a [string] of bytes (UTF-8); [str.upper] acts on the
      ASCII letters.  No other character upper-cases to a letter or digit of
      the tags G140, G235 and G395, so the branch the lookup takes is the one
      Python takes.
    - A raised exception is the [Raise] branch of [result]. *)

From Stdlib Require Import String Ascii Bool Arith ZArith QArith Lia List.
From Stdlib Require Import Reals Lra Sorted.
Import ListNotations.

(** ** Exceptions and results *)

Inductive exn : Type :=
| ValueError (msg : string)
| IndexError
| UnboundLocalError
| TypeError
| LinAlgError
| RuntimeError.

Inductive result (A : Type) : Type :=
| Ok (a : A)
| Raise (e : exn).

Arguments Ok {A} a.
Arguments Raise {A} e.

Definition rbind {A B : Type} (r : result A) (k : A -> result B) : result B :=
  match r with
  | Ok a => k a
  | Raise e => Raise e
  end.

Declare Scope result_scope.
Delimit Scope result_scope with result.
Notation "x <- r ;; k" := (rbind r (fun x => k))
  (at level 61, r at next level, right associativity) : result_scope.

(** ** Python's [list.pop] and string tests *)

Section PyList.
Context {A : Type}.

Fixpoint remove_nth (n : nat) (l : list A) : list A :=
  match l, n with
  | [], _ => []
  | _ :: t, O => t
  | h :: t, S n' => h :: remove_nth n' t
  end.

(** [l.pop(i)], keeping the list that is left: a negative index counts from
    the end, an index outside the list raises [IndexError]. *)
Definition pop (i : Z) (l : list A) : result (list A) :=
  let len := Z.of_nat (length l) in
  let j := if (i <? 0)%Z then (i + len)%Z else i in
  if ((0 <=? j)%Z && (j <? len)%Z)%bool
  then Ok (remove_nth (Z.to_nat j) l)
  else Raise IndexError.

End PyList.

Definition upper_ascii (c : ascii) : ascii :=
  let n := nat_of_ascii c in
  if ((97 <=? n) && (n <=? 122))%bool then ascii_of_nat (n - 32) else c.

Fixpoint upper (s : string) : string :=
  match s with
  | EmptyString => EmptyString
  | String c s' => String (upper_ascii c) (upper s')
  end.

(** [sub in s] on strings. *)
Fixpoint str_in (sub s : string) : bool :=
  if String.prefix sub s then true
  else match s with
       | EmptyString => false
       | String _ s' => str_in sub s'
       end.

(** ** spec_slice.py: the line catalogue *)

Module SpecSlice.

Local Open Scope string_scope.
Local Open Scope Q_scope.

(** One entry of [line_library]: a dict with these five keys. *)
Record line_spec : Type := mk_line_spec {
  min_lambda : Q;
  max_lambda : Q;
  main_line_name : string;
  line_names : list string;
  line_wavlengths : list Q
}.

(** *** Disperser G140 *)

Definition G140_Pa_delta : line_spec :=
  mk_line_spec 10020 10100 "Pa$\delta$"
    ["He ɪ"; "He ɪ"; "H ɪ"; "He ɪ"]
    [10030.469746750001; 10033.900158100001; 10052.128; 10074.806682083332].

Definition G140_He_I : line_spec :=
  mk_line_spec 10780 10900 "He ɪ"
    ["He ɪ"; "He ɪ"; "He ɪ"]
    [10832.057471999999; 10833.216751; 10833.306444].

Definition G140_Pa_gamma : line_spec :=
  mk_line_spec 10910 10990 "Pa$\gamma$"
    ["He ɪ"; "He ɪ"; "H ɪ"]
    [10915.991686366666; 10920.0525431; 10941.09].

Definition G140_Pa_beta : line_spec :=
  mk_line_spec 12760 12885 "Pa$\beta$"
    ["He ɪ"; "He ɪ"; "H ɪ"; "He ɪ"; "He ɪ"]
    [12788.43071063333; 12793.999402500001; 12821.59; 12849.46706775;
     12849.941156].

Definition G140_Br_zeta : line_spec :=
  mk_line_spec 17350 17430 "Br$\zeta$"
    ["He ɪ"; "He ɪ"; "H ɪ"; "He ɪ"]
    [17356.476694124285; 17358.26905142667; 17366.85; 17379.688902016667].

Definition G140_Pa_alpha : line_spec :=
  mk_line_spec 18675 18820 "Pa$\alpha$"
    ["He ɪ"; "He ɪ"; "H ɪ"]
    [18690.442142149997; 18702.3180723; 18756.13].

(** The list literal of the G140 branch (the Br epsilon entry is commented
    out in the source). *)
Definition G140_line_library : list line_spec :=
  [G140_Pa_delta; G140_He_I; G140_Pa_gamma; G140_Pa_beta; G140_Br_zeta;
   G140_Pa_alpha].

Definition G140_Pa_eta : line_spec :=
  mk_line_spec 8980 9060 "Pa$\eta$"
    ["He ɪ"; "He ɪ"; "He ɪ"; "He II"; "H ɪ"]
    [8999.4379225875; 8999.9904730; 9011.63606005; 9013.688; 9017.385].

Definition G140_Pa_zeta : line_spec :=
  mk_line_spec 9190 9290 "Pa$\zeta$"
    ["He ɪ"; "He I"; "He I"; "H I"]
    [9212.852746244444; 9215.75788475; 9227.763; 9231.547].

(** [extended_lines] of the G140 branch (Pa epsilon is commented out). *)
Definition extended_lines : list line_spec :=
  [G140_Pa_eta; G140_Pa_zeta].

(** *** Disperser G235 *)

Definition G235_Br_eta : line_spec :=
  mk_line_spec 16800 16850 "Br$\eta$"
    ["He ɪ"; "He ɪ"; "H ɪ"]
    [16801.156549285715; 16802.423072166664; 16811.111].

Definition G235_Br_zeta : line_spec :=
  mk_line_spec 17300 17440 "Br$\zeta$"
    ["He ɪ"; "He ɪ"; "He ɪ"; "H ɪ"; "He ɪ"]
    [17340.3448365; 17356.476694124285; 17358.26905142667; 17366.85;
     17379.688902016667].

Definition G235_Pa_alpha : line_spec :=
  mk_line_spec 18655 18840 "Pa$\alpha$"
    ["He ɪ"; "He ɪ"; "H ɪ"]
    [18690.442142149997; 18702.3180723; 18756.13].

Definition G235_He_I : line_spec :=
  mk_line_spec 20555 20660 "He ɪ"
    ["He ɪ"; "He ɪ"; "He ɪ"]
    [20586.904629999997; 20592.79265; 20607.463187666668].

Definition G235_Br_gamma : line_spec :=
  mk_line_spec 21575 21750 "Br$\gamma$"
    ["He ɪ"; "He ɪ"; "He ɪ"; "He ɪ"; "He ɪ"; "H ɪ"]
    [21613.70985955; 21622.905790999997; 21647.428962849997;
     21661.199999999997].

Definition G235_Br_beta : line_spec :=
  mk_line_spec 26180 26350 "Br$\beta$"
    ["He ɪ"; "He ɪ"; "He ɪ"; "H ɪ"]
    [26192.12167798333; 26205.6152478; 26240.915984385712;
     26258.670000000002].

Definition G235_Pf_eta : line_spec :=
  mk_line_spec 30350 30480 "Pf$\eta$"
    ["He ɪ"; "He ɪ"; "He ɪ"; "He ɪ"; "He ɪ"; "H ɪ"]
    [30373.882203465; 30373.934701927996; 30379.13724103666; 30392.022].

Definition G235_line_library : list line_spec :=
  [G235_Br_eta; G235_Br_zeta; G235_Pa_alpha; G235_He_I; G235_Br_gamma;
   G235_Br_beta; G235_Pf_eta].

(** *** Disperser G395 *)

Definition G395_Pf_eta : line_spec :=
  mk_line_spec 30330 30520 "Pf$\eta$"
    ["He ɪ"; "He ɪ"; "He ɪ"; "He ɪ"; "He ɪ"; "He ɪ"; "H ɪ"; "He ɪ"]
    [30337.957093580004; 30338.043565500004; 30338.14237;
     30373.934701927996; 30377.975075399998; 30379.406177666668;
     30392.022; 30399.158583].

Definition G395_Pf_gamma : line_spec :=
  mk_line_spec 37350 37580 "Pf$\gamma$"
    ["He ɪ"; "He ɪ"; "He ɪ"; "H ɪ"; "He ɪ"; "He ɪ"; "He ɪ"; "He ɪ"]
    [37328.38483621667; 37381.94650391429; 37390.70984881429; 37405.56;
     37411.76899333333; 37412.07705; 37478.342826; 37493.933000000005].

Definition G395_Br_alpha : line_spec :=
  mk_line_spec 40300 40730 "Br$\alpha$"
    ["He ɪ"; "He ɪ"; "He ɪ"; "He ɪ"; "He ɪ"; "H ɪ"; "He ɪ"; "He ɪ"; "He ɪ";
     "He ɪ"]
    [40377.31950816667; 40391.224109999996; 40409.4473965;
     40490.157808985714; 40512.137976000005; 40522.62; 40544.661538;
     40545.048049000005; 40563.50551566667; 40574.5684].

Definition G395_He_I : line_spec :=
  mk_line_spec 42900 43100 "He ɪ"
    ["He ɪ"; "He ɪ"; "He ɪ"; "He ɪ"; "He ɪ"; "He ɪ"]
    [42954.167; 42959.1611; 42959.566699999996; 42959.90127;
     42959.905360000004; 42959.90569].

Definition G395_Hu_zeta : line_spec :=
  mk_line_spec 43725 43900 "Hu$\zeta$"
    ["He ɪ"; "He ɪ"; "He ɪ"; "He ɪ"; "He ɪ"; "He ɪ"; "H ɪ"]
    [43739.4215275; 43745.918667499995; 43746.04701666667; 43746.1930395;
     43746.2220454; 43746.46316571428; 43764.543999999994].

Definition G395_Hu_delta : line_spec :=
  mk_line_spec 51230 51450 "Hu$\delta$"
    ["He ɪ"; "He ɪ"; "H ɪ"]
    [51263.32814807571; 51271.5462147; 51286.57].

Definition G395_line_library : list line_spec :=
  [G395_Pf_eta; G395_Pf_gamma; G395_Br_alpha; G395_He_I; G395_Hu_zeta;
   G395_Hu_delta].

(** *** The lookup *)

Local Open Scope result_scope.

(** The list literal of the branch a disperser selects, before any removal:
    the branches are tried in the order G140, G235, G395 on the upper-cased
    identifier, and a branch is taken when its tag occurs in it. *)
Definition base_library (disperser : string) : option (list line_spec) :=
  let disperser := upper disperser in
  if str_in "G140" disperser then Some G140_line_library
  else if str_in "G235" disperser then Some G235_line_library
  else if str_in "G395" disperser then Some G395_line_library
  else None.

Definition get_spectra_slice_specs
  (disperser : string) (mode : string) (extend : bool)
  : result (list line_spec) :=
  let disperser := upper disperser in
  if str_in "G140" disperser then
    let line_library := G140_line_library in
    line_library <-
      (if String.eqb mode "FS" then
         pop (-1) line_library
       else if String.eqb mode "MSA" then
         line_library <- pop (-1) line_library ;;
         pop 1 line_library
       else Ok line_library) ;;
    if extend then
      let line_library := (extended_lines ++ line_library)%list in
      line_library <- pop (-2) line_library ;;
      pop (-1) line_library
    else Ok line_library
  else if str_in "G235" disperser then
    let line_library := G235_line_library in
    if String.eqb mode "FS" then
      line_library <- pop 0 line_library ;;
      pop (-1) line_library
    else if String.eqb mode "MSA" then
      line_library <- pop 0 line_library ;;
      pop 2 line_library
    else Ok line_library
  else if str_in "G395" disperser then
    let line_library := G395_line_library in
    if String.eqb mode "FS" then
      line_library <- pop 1 line_library ;;
      pop (-1) line_library
    else if String.eqb mode "MSA" then
      line_library <- pop 2 line_library ;;
      line_library <- pop 1 line_library ;;
      pop (-1) line_library
    else Ok line_library
  else
    Raise (ValueError ("Disperser " ++ disperser ++ " not recognized.")).

End SpecSlice.

(** ** util.py: line shapes, pixel integration, solvers, segment cut *)

Module Util.

Local Open Scope R_scope.
Local Open Scope result_scope.

(** A one-dimensional float array. *)
Abbreviation vector := (list R) (only parsing).

(** A two-dimensional array, as the list of its rows. *)
Abbreviation matrix := (list (list R)) (only parsing).

Definition light_speed : R := 299792.458.

(** The routines [util.py] imports from numpy and scipy and does not define:
    [scipy.special.erf], [scipy.special.voigt_profile x sigma gamma],
    [scipy.integrate.quad f a b epsrel epsabs] (its first component),
    [np.linalg.lstsq A b] and [scipy.optimize.nnls A b] (their first
    components; either may raise). *)
Class Numerics : Type := {
  erf : R -> R;
  voigt_profile : R -> R -> R -> R;
  quad : (R -> R) -> R -> R -> R -> R -> R;
  lstsq : matrix -> vector -> result vector;
  nnls : matrix -> vector -> result vector
}.

(** *** numpy helpers *)

Definition np_sum (x : vector) : R := fold_right Rplus 0 x.

Definition np_mean (x : vector) : R := np_sum x / INR (length x).

Definition ones_like (x : vector) : vector := map (fun _ => 1) x.

Definition arange (n : nat) : vector := map INR (seq 0 n).

(** [x[i]] on a list: [IndexError] outside it. *)
Definition getitem (x : vector) (i : nat) : result R :=
  match nth_error x i with
  | Some v => Ok v
  | None => Raise IndexError
  end.

Fixpoint map2 {A B C : Type} (f : A -> B -> C) (xs : list A) (ys : list B)
  : list C :=
  match xs, ys with
  | x :: xs', y :: ys' => f x y :: map2 f xs' ys'
  | _, _ => []
  end.

(** An elementwise binary operation along the first axis with numpy's
    broadcasting: equal lengths pair up, a length-one operand is repeated,
    anything else raises. *)
Definition broadcast2 {A B C : Type} (f : A -> B -> C)
  (xs : list A) (ys : list B) : result (list C) :=
  if (length xs =? length ys)%nat then Ok (map2 f xs ys)
  else match xs, ys with
       | [x], _ => Ok (map (f x) ys)
       | _, [y] => Ok (map (fun x => f x y) xs)
       | _, _ => Raise (ValueError "operands could not be broadcast together")
       end.

(** [np.array(cols).T] for [cols] a list of vectors of one common length. *)
Definition transpose (cols : list vector) : matrix :=
  map (fun i => map (fun c => nth i c 0) cols)
      (seq 0 (length (hd [] cols))).

Definition dot (u v : vector) : R := np_sum (map2 Rmult u v).

(** [A @ c] for a two-dimensional [A] and a one-dimensional [c]. *)
Definition matvec (A : matrix) (c : vector) : result vector :=
  if forallb (fun row => (length row =? length c)%nat) A
  then Ok (map (fun row => dot row c) A)
  else Raise (ValueError "matmul: mismatch in core dimension").

(** The entries of [x] that the mask keeps. *)
Fixpoint compress (mask : list bool) (x : vector) : vector :=
  match mask, x with
  | m :: mask', v :: x' =>
      if m then v :: compress mask' x' else compress mask' x'
  | _, _ => []
  end.

(** [x[mask]] for a boolean mask: the lengths must agree, except that numpy
    takes a mask of length zero on an array of any length and returns the
    empty array. *)
Definition bool_index (x : vector) (mask : list bool) : result vector :=
  if ((length mask =? length x)%nat || (length mask =? 0)%nat)%bool
  then Ok (compress mask x)
  else Raise IndexError.

Definition Rltb (a b : R) : bool := if Rlt_dec a b then true else false.

Section WithNumerics.
Context {N : Numerics}.

(** *** Definite integrals *)

Definition integrate_gaussian (a b mu fwhm : R) : R :=
  let sigma := fwhm / 2.355 in
  sigma * sqrt (PI / 2.0)
  * (erf ((b - mu) / (sqrt 2 * sigma)) - erf ((a - mu) / (sqrt 2 * sigma))).

Definition integrate_voigt (a b : vector) (mu fwhm gamma : R) : vector :=
  let sigma := fwhm / 2.355 in
  map (fun ab : R * R =>
         quad (fun t => voigt_profile t sigma gamma)
              (fst ab - mu) (snd ab - mu) 1e-6 1e-6)
      (combine a b)
  ++ repeat 0 (length a - length b).

Definition integrate_lorentzian (a b mu fwhm : R) : R :=
  let gamma := fwhm / 2.0 in
  (atan ((b - mu) / gamma) - atan ((a - mu) / gamma)) / PI.

(** *** Peak profiles (defaults: amplitude 1, continuum 0 and 0) *)

Definition get_lorentzian
  (x : vector) (mu fwhm amp continuum_amp continuum_slope : R) : vector :=
  let gamma := fwhm / 2 in
  map (fun xi =>
         amp * gamma / ((xi - mu) ^ 2 + gamma ^ 2) / PI
         + continuum_amp
         + (xi - np_mean x) * continuum_slope) x.

Definition get_gaussian
  (x : vector) (mu fwhm gaussian_amp continuum_amp continuum_slope : R)
  : vector :=
  let sigma := fwhm / 2.355 in
  map (fun xi =>
         gaussian_amp * exp (- ((xi - mu) ^ 2) / (2 * sigma ^ 2))
         + continuum_amp
         + (xi - np_mean x) * continuum_slope) x.

Definition get_voigt
  (x : vector) (mu fwhm gamma amp continuum_amp continuum_slope : R)
  : vector :=
  let sigma := fwhm / 2.355 in
  map (fun xi =>
         amp * voigt_profile (xi - mu) sigma gamma
         + continuum_amp
         + (xi - np_mean x) * continuum_slope) x.

(** *** Pixel-integrated profiles *)

Definition get_pixel_integrated_gaussian
  (x : vector) (mu fwhm gaussian_amp continuum_amp continuum_slope : R)
  : result vector :=
  x1 <- getitem x 1 ;;
  x0 <- getitem x 0 ;;
  let lambda_diff := x1 - x0 in
  Ok (map (fun xi =>
             gaussian_amp
             * integrate_gaussian (xi - lambda_diff / 2.0)
                 (xi + lambda_diff / 2.0) mu fwhm
             + continuum_amp
             + (xi - np_mean x) * continuum_slope) x).

Definition get_pixel_integrated_voigt
  (x : vector) (mu fwhm gamma amp continuum_amp continuum_slope : R)
  : result vector :=
  x1 <- getitem x 1 ;;
  x0 <- getitem x 0 ;;
  let lambda_diff := x1 - x0 in
  let integrals :=
    integrate_voigt (map (fun xi => xi - lambda_diff / 2.0) x)
      (map (fun xi => xi + lambda_diff / 2.0) x) mu fwhm gamma in
  Ok (map2 (fun iv xi =>
              amp * iv + continuum_amp + (xi - np_mean x) * continuum_slope)
        integrals x).

Definition get_pixel_integrated_lorentzian
  (x : vector) (mu fwhm amp continuum_amp continuum_slope : R)
  : result vector :=
  x1 <- getitem x 1 ;;
  x0 <- getitem x 0 ;;
  let lambda_diff := x1 - x0 in
  Ok (map (fun xi =>
             amp
             * integrate_lorentzian (xi - lambda_diff / 2.0)
                 (xi + lambda_diff / 2.0) mu fwhm
             + continuum_amp
             + (xi - np_mean x) * continuum_slope) x).

Definition get_spectra_model
  (x : vector) (mu fwhm gaussian_amp continuum_amp continuum_slope : R)
  (line_type : string) (voigt_gamma : R) : result vector :=
  if String.eqb line_type "gaussian" then
    get_pixel_integrated_gaussian x mu fwhm gaussian_amp continuum_amp
      continuum_slope
  else if String.eqb line_type "voigt" then
    get_pixel_integrated_voigt x mu fwhm voigt_gamma gaussian_amp
      continuum_amp continuum_slope
  else if String.eqb line_type "lorentzian" then
    get_pixel_integrated_lorentzian x mu fwhm gaussian_amp continuum_amp
      continuum_slope
  else Raise (ValueError ("Unknown line type: " ++ line_type)%string).

(** *** The solver calls of one fit

    A fit threads the list of solver calls made so far, in order, next to its
    result, so that which solver ran, and on which system, can be stated. *)

Inductive solver_call : Type :=
| LstsqCall (A : matrix) (b : vector)
| NnlsCall (A : matrix) (b : vector).

Definition fit (T : Type) : Type :=
  list solver_call -> result T * list solver_call.

Definition fit_ret {T : Type} (t : T) : fit T := fun calls => (Ok t, calls).

Definition fit_bind {T U : Type} (m : fit T) (k : T -> fit U) : fit U :=
  fun calls =>
    match m calls with
    | (Ok t, calls') => k t calls'
    | (Raise e, calls') => (Raise e, calls')
    end.

Definition fit_lift {T : Type} (r : result T) : fit T :=
  fun calls => (r, calls).

Definition call_lstsq (A : matrix) (b : vector) : fit vector :=
  fun calls => (lstsq A b, calls ++ [LstsqCall A b]).

Definition call_nnls (A : matrix) (b : vector) : fit vector :=
  fun calls => (nnls A b, calls ++ [NnlsCall A b]).

(** [try: body / except np.linalg.LinAlgError: handler]. *)
Definition try_except_LinAlgError {T : Type} (body handler : fit T) : fit T :=
  fun calls =>
    match body calls with
    | (Raise LinAlgError, calls') => handler calls'
    | other => other
    end.

Definition run_fit {T : Type} (m : fit T) : result T * list solver_call :=
  m [].

Declare Scope fit_scope.
Delimit Scope fit_scope with fit.
Notation "x <- m ;; k" := (fit_bind m (fun x => k))
  (at level 61, m at next level, right associativity) : fit_scope.

(** *** Composite model and weighted solve *)

(** The [fwhms] argument: a Python float, a scalar that is not a float (an
    [int]), or a sequence of widths. *)
Inductive fwhms_arg : Type :=
| FwhmFloat (fwhm : R)
| FwhmInt (fwhm : Z)
| FwhmSeq (fwhms : vector).

(** [if isinstance(fwhms, float): fwhms = np.ones_like(lines) * fwhms]:
    only a float is expanded, anything else is left as it is. *)
Definition expand_fwhms (fwhms : fwhms_arg) (lines : vector) : fwhms_arg :=
  match fwhms with
  | FwhmFloat fwhm => FwhmSeq (map (fun one => one * fwhm) (ones_like lines))
  | FwhmInt fwhm => FwhmInt fwhm
  | FwhmSeq fwhms => FwhmSeq fwhms
  end.

(** [iter(fwhms)], as [zip] performs it on each argument: a scalar is not
    iterable. *)
Definition iter_fwhms (fwhms : fwhms_arg) : result vector :=
  match fwhms with
  | FwhmSeq fwhms => Ok fwhms
  | FwhmFloat _ => Raise TypeError
  | FwhmInt _ => Raise TypeError
  end.

(** The [for fwhm, line in zip(fwhms, lines)] loop of
    [best_linear_fit_model], over the zipped pairs. *)
Fixpoint line_models_loop (velocity : R) (wavelengths : vector)
  (line_type : string) (voigt_gamma : R) (pairs : list (R * R))
  : result (list vector) :=
  match pairs with
  | [] => Ok []
  | (fwhm, line) :: rest =>
      let mu := line * (1 + velocity / light_speed) in
      line_model <-
        get_spectra_model wavelengths mu fwhm 1 0 0 line_type voigt_gamma ;;
      models <-
        line_models_loop velocity wavelengths line_type voigt_gamma rest ;;
      Ok (line_model :: models)
  end.

(** The two trend vectors appended after the loop; [line_model] is the loop's
    last value, unbound when the loop ran no iteration. *)
Definition append_trend (models : list vector) : result (list vector) :=
  match rev models with
  | [] => Raise UnboundLocalError
  | line_model :: _ =>
      Ok (models ++ [ones_like line_model; arange (length line_model)])
  end.

(** [line_models] of [best_linear_fit_model] as it stands before the design
    matrix is formed. *)
Definition line_models (velocity : R) (fwhms : fwhms_arg)
  (wavelengths lines : vector) (line_type : string) (voigt_gamma : R)
  : result (list vector) :=
  let fwhms := expand_fwhms fwhms lines in
  fwhms <- iter_fwhms fwhms ;;
  models <-
    line_models_loop velocity wavelengths line_type voigt_gamma
      (combine fwhms lines) ;;
  append_trend models.

(** [w = 1 / noise**2], [A * np.sqrt(w)[:, np.newaxis]], [b * np.sqrt(w)]. *)
Definition weighted_system (A : matrix) (b noise : vector)
  : result (matrix * vector) :=
  let w := map (fun n => 1 / n ^ 2) noise in
  A_weighted <-
    broadcast2 (fun row s => map (fun a => a * s) row) A (map sqrt w) ;;
  b_weighted <- broadcast2 Rmult b (map sqrt w) ;;
  Ok (A_weighted, b_weighted).

(** Returns [(line_model, coeffs)] when [get_amp], else [line_model] alone. *)
Definition best_linear_fit_model
  (velocity : R) (fwhms : fwhms_arg) (wavelengths spectra noise lines : vector)
  (line_type : string) (voigt_gamma : R) (get_amp : bool)
  : fit (vector * option vector) :=
  (line_models <-
     fit_lift (line_models velocity fwhms wavelengths lines line_type
                 voigt_gamma) ;;
   let A := transpose line_models in
   system <- fit_lift (weighted_system A spectra noise) ;;
   let A_weighted := fst system in
   let b_weighted := snd system in
   coeffs <-
     try_except_LinAlgError (call_lstsq A_weighted b_weighted)
       (call_nnls A_weighted b_weighted) ;;
   line_model <- fit_lift (matvec A coeffs) ;;
   fit_ret (line_model, if get_amp then Some coeffs else None))%fit.

(** *** Coupled two-spectrum solve *)

(** The [for fwhm_1, fwhm_2, line in zip(fwhms_1, fwhms_2, lines)] loop. *)
Fixpoint simultaneous_loop (velocity_1 velocity_2 : R)
  (wavelengths_1 wavelengths_2 : vector) (triples : list (R * R * R))
  : result (list vector * list vector) :=
  match triples with
  | [] => Ok ([], [])
  | (fwhm_1, fwhm_2, line) :: rest =>
      let mu_1 := line * (1 + velocity_1 / light_speed) in
      line_model_1 <-
        get_spectra_model wavelengths_1 mu_1 fwhm_1 1 0 0 "gaussian" 1.0 ;;
      let mu_2 := line * (1 + velocity_2 / light_speed) in
      line_model_2 <-
        get_spectra_model wavelengths_2 mu_2 fwhm_2 1 0 0 "gaussian" 1.0 ;;
      models <-
        simultaneous_loop velocity_1 velocity_2 wavelengths_1 wavelengths_2
          rest ;;
      Ok (line_model_1 :: fst models, line_model_2 :: snd models)
  end.

(** [coeffs[:-2]]. *)
Definition drop_last_two (coeffs : vector) : vector :=
  firstn (length coeffs - 2) coeffs.

(** [A_2]: [np.vstack((spec_model_2, ones, arange)).T]. *)
Definition design_matrix_2 (spec_model_2 : vector) : matrix :=
  transpose [spec_model_2; ones_like spec_model_2;
             arange (length spec_model_2)].

Definition best_linear_fit_model_simultaneous
  (velocity_1 : R) (fwhms_1 : fwhms_arg) (velocity_2 : R)
  (fwhms_2 : fwhms_arg)
  (wavelengths_1 spectra_1 noise_1 wavelengths_2 spectra_2 noise_2
     lines : vector)
  : fit (vector * vector) :=
  (let fwhms_1 := expand_fwhms fwhms_1 lines in
   let fwhms_2 := expand_fwhms fwhms_2 lines in
   fwhms_1 <- fit_lift (iter_fwhms fwhms_1) ;;
   fwhms_2 <- fit_lift (iter_fwhms fwhms_2) ;;
   models <-
     fit_lift (simultaneous_loop velocity_1 velocity_2 wavelengths_1
                 wavelengths_2
                 (combine (combine fwhms_1 fwhms_2) lines)) ;;
   let line_models_2 := snd models in
   line_models_1 <- fit_lift (append_trend (fst models)) ;;
   let A := transpose line_models_1 in
   system <- fit_lift (weighted_system A spectra_1 noise_1) ;;
   coeffs <- call_nnls (fst system) (snd system) ;;
   line_model_1 <- fit_lift (matvec A coeffs) ;;
   spec_model_2 <-
     fit_lift (matvec (transpose line_models_2) (drop_last_two coeffs)) ;;
   let A_2 := design_matrix_2 spec_model_2 in
   system_2 <- fit_lift (weighted_system A_2 spectra_2 noise_2) ;;
   coeffs_2 <- call_nnls (fst system_2) (snd system_2) ;;
   line_model_2 <- fit_lift (matvec A_2 coeffs_2) ;;
   fit_ret (line_model_1, line_model_2))%fit.

End WithNumerics.

(** *** Segment cut *)

Definition get_spectra_cuts
  (start end_ : R) (wavelengths spectra_1d noise_1d : vector)
  : result (vector * vector * vector) :=
  let mask := map (fun w => Rltb start w && Rltb w end_) wavelengths in
  wavelengths_cut <- bool_index wavelengths mask ;;
  spectra_cut <- bool_index spectra_1d mask ;;
  noise_cut <- bool_index noise_1d mask ;;
  Ok (wavelengths_cut, spectra_cut, noise_cut).

(** The three cut arrays read back as samples. *)
Definition samples (wavelengths spectra_1d noise_1d : vector)
  : list (R * R * R) :=
  combine (combine wavelengths spectra_1d) noise_1d.

Definition in_window (start end_ : R) (sample : R * R * R) : bool :=
  Rltb start (fst (fst sample)) && Rltb (fst (fst sample)) end_.

(** *** Vocabulary of the statements *)

(** The line types [get_spectra_model] knows. *)
Definition known_line_type (line_type : string) : Prop :=
  line_type = "gaussian"%string \/ line_type = "voigt"%string
  \/ line_type = "lorentzian"%string.

(** The width used for line [i]: the float itself, or entry [i] of the
    sequence. *)
Definition fwhm_of (fwhms : fwhms_arg) (i : nat) : R :=
  match fwhms with
  | FwhmFloat fwhm => fwhm
  | FwhmInt fwhm => IZR fwhm
  | FwhmSeq fwhms => nth i fwhms 0
  end.

(** The widths are a float, or a sequence with one entry per line. *)
Definition fwhms_match (fwhms : fwhms_arg) (lines : vector) : Prop :=
  match fwhms with
  | FwhmFloat _ => True
  | FwhmInt _ => False
  | FwhmSeq fwhms => length fwhms = length lines
  end.

(** The widths are a float or a sequence, of any length. *)
Definition float_or_sequence (fwhms : fwhms_arg) : Prop :=
  match fwhms with
  | FwhmInt _ => False
  | _ => True
  end.

(** The widths that [zip] pairs with the lines, for a float or a sequence. *)
Definition widths_of (fwhms : fwhms_arg) (lines : vector) : vector :=
  match fwhms with
  | FwhmFloat fwhm => map (fun one => one * fwhm) (ones_like lines)
  | FwhmInt _ => []
  | FwhmSeq fwhms => fwhms
  end.





(** The inverse-variance-weighted system: row [i] of [A] and entry [i] of
    [b] times [sqrt (1 / noise_i ^ 2)]. *)
Definition weigh_rows (A : matrix) (noise : vector) : matrix :=
  map2 (fun row n => map (fun a => a * sqrt (1 / n ^ 2)) row) A noise.

Definition weigh (b noise : vector) : vector :=
  map2 (fun v n => v * sqrt (1 / n ^ 2)) b noise.

(** What numpy and scipy document of the two solvers: a returned coefficient
    vector has one entry per column of the system, and the entries [nnls]
    returns are non-negative. *)
Record solver_contract (N : Numerics) : Prop := {
  lstsq_shape : forall A b c, lstsq A b = Ok c -> length c = length (hd [] A);
  nnls_shape : forall A b c, nnls A b = Ok c -> length c = length (hd [] A);
  nnls_nonneg : forall A b c, nnls A b = Ok c -> Forall (fun v => 0 <= v) c
}.

(** The value [best_linear_fit_model] returns for coefficients [coeffs]. *)
Definition fit_value (get_amp : bool) (line_model coeffs : vector)
  : vector * option vector :=
  (line_model, if get_amp then Some coeffs else None).



(** A uniform grid of [n] pixel centres from [x0] in steps of [d]. *)
Definition grid (x0 d : R) (n : nat) : vector :=
  map (fun i => x0 + INR i * d) (seq 0 n).

(** The sum of the squares of a vector of residuals. *)
Definition sum_of_squares (r : vector) : R := np_sum (map (fun v => v ^ 2) r).

(** *** An instance of the imported routines, for closed examples

    [lstsq] always reports a failed decomposition and [nnls] answers with the
    zero vector, so that the fallback path can be run; [erf] is a stand-in of
    the same shape, [voigt_profile] is the zero-[gamma] Voigt profile (the
    normalised Gaussian) and [quad] is the midpoint rule. *)
Definition example_numerics : Numerics := {|
  erf := fun x => 2 / PI * atan x;
  voigt_profile := fun x sigma _ =>
    exp (- (x ^ 2) / (2 * sigma ^ 2)) / (sigma * sqrt (2 * PI));
  quad := fun f a b _ _ => (b - a) * f ((a + b) / 2);
  lstsq := fun _ _ => Raise LinAlgError;
  nnls := fun A _ => Ok (map (fun _ => 0) (hd [] A))
|}.

(** A three-pixel segment around two lines, for the same examples. *)
Definition example_wavelengths : vector := [6550; 6560; 6570].
Definition example_spectra : vector := [1; 5; 2].
Definition example_noise : vector := [0.5; 0.5; 0.5].
Definition example_lines : vector := [6562.8; 6583.4].

End Util.

(** * Properties of the line catalogue *)

Module SpecSliceProps.
Import SpecSlice.

Local Open Scope string_scope.

Lemma eqb_other_mode (mode tag : string) :
  mode <> tag -> String.eqb mode tag = false.
Proof. intro H. now apply String.eqb_neq. Qed.

(** [pop] on small lists: from the end, from the front, outside the list. *)
Example pop_last : pop (-1) [1; 2; 3]%nat = Ok [1; 2]%nat.
Proof. reflexivity. Qed.

Example pop_second : pop 1 [1; 2; 3]%nat = Ok [1; 3]%nat.
Proof. reflexivity. Qed.

Example pop_before_last : pop (-2) [1; 2; 3]%nat = Ok [1; 3]%nat.
Proof. reflexivity. Qed.

Example pop_outside : pop 3 [1; 2; 3]%nat = Raise IndexError.
Proof. reflexivity. Qed.

Example pop_empty : pop (-1) (@nil nat) = Raise IndexError.
Proof. reflexivity. Qed.

(** The lookup on a lower-case identifier, by group label. *)
Example g140m_msa_extended_labels :
  match get_spectra_slice_specs "g140m" "MSA" true with
  | Ok l => map main_line_name l
  | Raise _ => []
  end
  = ["Pa$\eta$"; "Pa$\zeta$"; "Pa$\delta$"; "Pa$\gamma$"].
Proof. reflexivity. Qed.

Example g395h_fs_labels :
  match get_spectra_slice_specs "G395H" "FS" false with
  | Ok l => map main_line_name l
  | Raise _ => []
  end
  = ["Pf$\eta$"; "Br$\alpha$"; "He ɪ"; "Hu$\zeta$"].
Proof. reflexivity. Qed.

(** With [extend] off, a recognised disperser never raises, whatever the
    mode: every [pop] of the source stays inside its list. *)
Lemma plain_lookup_returns (disperser mode : string) (base : list line_spec) :
  base_library disperser = Some base ->
  exists l, get_spectra_slice_specs disperser mode false = Ok l.
Proof.
  unfold base_library, get_spectra_slice_specs.
  destruct (str_in "G140" (upper disperser));
    [| destruct (str_in "G235" (upper disperser));
       [| destruct (str_in "G395" (upper disperser)); [| discriminate]]];
    intros _;
    destruct (String.eqb mode "FS"); try (eexists; reflexivity);
    destruct (String.eqb mode "MSA"); eexists; reflexivity.
Qed.

(** C6, as stated, fails: G140 has six base groups, so mode FS leaves five
    of them, not six. *)
Lemma C6_g140_fs_is_not_six :
  ~ (exists l, get_spectra_slice_specs "G140" "FS" false = Ok l
               /\ length l = 6%nat).
Proof.
  intros [l [H Hlen]]. vm_compute in H. inversion H; subst l.
  discriminate Hlen.
Qed.

(** C6 (amended): for disperser G140 with [extend] off, the base list has 6
    groups; mode FS returns 5 of them (the last, Pa alpha, removed) and mode
    MSA returns 4 (the last and the second, He I, removed). *)
Theorem C6_g140_group_counts :
  length G140_line_library = 6%nat
  /\ get_spectra_slice_specs "G140" "FS" false
     = Ok [G140_Pa_delta; G140_He_I; G140_Pa_gamma; G140_Pa_beta;
           G140_Br_zeta]
  /\ get_spectra_slice_specs "G140" "FS" false
     = Ok (removelast G140_line_library)
  /\ get_spectra_slice_specs "G140" "MSA" false
     = Ok [G140_Pa_delta; G140_Pa_gamma; G140_Pa_beta; G140_Br_zeta]
  /\ get_spectra_slice_specs "G140" "MSA" false
     = Ok (remove_nth 1 (removelast G140_line_library)).
Proof. repeat split. Qed.

(** With no tag in the upper-cased identifier the [else] branch is taken. *)
Lemma unrecognized_disperser_message
  (disperser mode : string) (extend : bool) :
  str_in "G140" (upper disperser) = false ->
  str_in "G235" (upper disperser) = false ->
  str_in "G395" (upper disperser) = false ->
  get_spectra_slice_specs disperser mode extend
  = Raise (ValueError
             ("Disperser " ++ upper disperser ++ " not recognized.")).
Proof.
  intros H140 H235 H395. unfold get_spectra_slice_specs.
  now rewrite H140, H235, H395.
Qed.

(** C8: a disperser whose upper-cased form matches none of the tags G140,
    G235, G395 (none of them occurs in it) makes the lookup raise
    [ValueError] instead of returning a list, for every mode and every
    [extend]. *)
Theorem C8_unrecognized_disperser_raises
  (disperser mode : string) (extend : bool) :
  str_in "G140" (upper disperser) = false ->
  str_in "G235" (upper disperser) = false ->
  str_in "G395" (upper disperser) = false ->
  (exists msg,
     get_spectra_slice_specs disperser mode extend = Raise (ValueError msg))
  /\ forall l, get_spectra_slice_specs disperser mode extend <> Ok l.
Proof.
  intros H140 H235 H395.
  rewrite (unrecognized_disperser_message _ mode extend H140 H235 H395).
  split; [eexists; reflexivity | discriminate].
Qed.

Lemma C8_witness :
  (str_in "G140" (upper "prism") = false
   /\ str_in "G235" (upper "prism") = false
   /\ str_in "G395" (upper "prism") = false)
  /\ (exists msg,
        get_spectra_slice_specs "prism" "MSA" true = Raise (ValueError msg))
  /\ forall l, get_spectra_slice_specs "prism" "MSA" true <> Ok l.
Proof.
  split; [repeat split |].
  apply (C8_unrecognized_disperser_raises "prism" "MSA" true); reflexivity.
Defined.

(** The converse: the lookup raises [ValueError] only for such a disperser
    (with [extend] off). *)
Lemma value_error_only_when_unrecognized (disperser mode msg : string) :
  get_spectra_slice_specs disperser mode false = Raise (ValueError msg) ->
  base_library disperser = None.
Proof.
  intro H. destruct (base_library disperser) as [base |] eqn:E; [| reflexivity].
  destruct (plain_lookup_returns disperser mode base E) as [l Hl].
  rewrite Hl in H. discriminate H.
Qed.

(** C9, as stated, fails: for G235 in mode FS the list returned with
    [extend] on has no group that the list returned with [extend] off
    lacks. *)
Lemma C9_g235_extend_adds_nothing :
  ~ (exists l1 l0 g,
        get_spectra_slice_specs "G235" "FS" true = Ok l1
        /\ get_spectra_slice_specs "G235" "FS" false = Ok l0
        /\ In g l1 /\ ~ In g l0).
Proof.
  intros [l1 [l0 [g [H1 [H0 [Hin Hnot]]]]]].
  assert (E : get_spectra_slice_specs "G235" "FS" true
              = get_spectra_slice_specs "G235" "FS" false) by reflexivity.
  rewrite H1, H0 in E. inversion E; subst l1. contradiction.
Qed.

Lemma Pa_eta_not_in_G140 : ~ In G140_Pa_eta G140_line_library.
Proof.
  intro H. repeat (destruct H as [H | H]; [discriminate H |]). exact H.
Qed.

Lemma in_remove_nth {A : Type} (n : nat) (l : list A) (a : A) :
  In a (remove_nth n l) -> In a l.
Proof.
  revert n. induction l as [| h t IH]; intros n H; [destruct n; exact H |].
  destruct n as [| n']; simpl in H.
  - now right.
  - destruct H as [H | H]; [now left | right; eauto].
Qed.

Lemma in_pop {A : Type} (i : Z) (l l' : list A) (a : A) :
  pop i l = Ok l' -> In a l' -> In a l.
Proof.
  unfold pop. destruct (_ && _)%bool; [| discriminate].
  intros H; inversion H; subst l'. apply in_remove_nth.
Qed.

(** What the G140 branch returns with [extend] off is drawn from its base
    list. *)
Lemma g140_plain_subset (disperser mode : string) (l : list line_spec) :
  str_in "G140" (upper disperser) = true ->
  get_spectra_slice_specs disperser mode false = Ok l ->
  forall g, In g l -> In g G140_line_library.
Proof.
  intros Hd. unfold get_spectra_slice_specs. rewrite Hd.
  destruct (String.eqb mode "FS"); [| destruct (String.eqb mode "MSA")];
    intros H; cbn in H; inversion H; subst l; clear H;
    intros g Hg; vm_compute in Hg |- *; tauto.
Qed.

(** C9 (amended): for a disperser of the G140 branch and every mode, the list
    returned with [extend] on starts with the two groups Pa eta and Pa zeta,
    and Pa eta is in no list returned with [extend] off; for a disperser of
    the G235 or G395 branch, or an unrecognised one, [extend] changes
    nothing. *)
Theorem C9_extend_only_for_g140 (disperser mode : string) :
  (str_in "G140" (upper disperser) = true ->
   exists l1 l0 rest,
     get_spectra_slice_specs disperser mode true = Ok l1
     /\ get_spectra_slice_specs disperser mode false = Ok l0
     /\ l1 = G140_Pa_eta :: G140_Pa_zeta :: rest
     /\ In G140_Pa_eta l1 /\ ~ In G140_Pa_eta l0)
  /\ (str_in "G140" (upper disperser) = false ->
      get_spectra_slice_specs disperser mode true
      = get_spectra_slice_specs disperser mode false).
Proof.
  split; intro Hd.
  - assert (Hbase : base_library disperser = Some G140_line_library)
      by (unfold base_library; now rewrite Hd).
    destruct (plain_lookup_returns disperser mode _ Hbase) as [l0 Hl0].
    assert (Hnot : ~ In G140_Pa_eta l0).
    { intro Hin. apply Pa_eta_not_in_G140.
      exact (g140_plain_subset disperser mode l0 Hd Hl0 _ Hin). }
    assert (H1 : exists rest,
               get_spectra_slice_specs disperser mode true
               = Ok (G140_Pa_eta :: G140_Pa_zeta :: rest)).
    { unfold get_spectra_slice_specs. rewrite Hd.
      destruct (String.eqb mode "FS"); [| destruct (String.eqb mode "MSA")];
        eexists; reflexivity. }
    destruct H1 as [rest H1].
    exists (G140_Pa_eta :: G140_Pa_zeta :: rest), l0, rest.
    repeat split; auto. now left.
  - unfold get_spectra_slice_specs. now rewrite Hd.
Qed.

Lemma C9_witness :
  str_in "G140" (upper "g140m") = true
  /\ exists l1 l0 rest,
       get_spectra_slice_specs "g140m" "MSA" true = Ok l1
       /\ get_spectra_slice_specs "g140m" "MSA" false = Ok l0
       /\ l1 = G140_Pa_eta :: G140_Pa_zeta :: rest
       /\ In G140_Pa_eta l1 /\ ~ In G140_Pa_eta l0.
Proof.
  split; [reflexivity |].
  apply (proj1 (C9_extend_only_for_g140 "g140m" "MSA")). reflexivity.
Defined.

(** Removing one entry shortens a list by one. *)
Lemma pop_length {A : Type} (i : Z) (l l' : list A) :
  pop i l = Ok l' -> S (length l') = length l.
Proof.
  unfold pop.
  destruct (_ && _)%bool eqn:E; [| discriminate].
  intros H; inversion H; subst l'; clear H.
  apply andb_prop in E. destruct E as [E0 E1].
  apply Z.leb_le in E0. apply Z.ltb_lt in E1.
  set (j := if (i <? 0)%Z then (i + Z.of_nat (length l))%Z else i) in *.
  assert (Hn : (Z.to_nat j < length l)%nat) by lia.
  clear E0 E1. generalize dependent (Z.to_nat j). clear.
  induction l as [| h t IH]; intros n Hn; simpl in *; [lia |].
  destruct n as [| n']; [reflexivity |]. simpl. rewrite IH; [reflexivity | lia].
Qed.

(** C10: for a recognised disperser and a mode that is neither FS nor MSA
    (case-sensitively), with [extend] off, the lookup raises nothing and
    returns the branch's base list whole; modes FS and MSA each return
    strictly fewer groups, all of them drawn from that list. *)
Theorem C10_other_mode_returns_base
  (disperser mode : string) (base : list line_spec) :
  base_library disperser = Some base ->
  mode <> "FS" -> mode <> "MSA" ->
  get_spectra_slice_specs disperser mode false = Ok base
  /\ forall mode', mode' = "FS" \/ mode' = "MSA" ->
       exists l, get_spectra_slice_specs disperser mode' false = Ok l
                 /\ (length l < length base)%nat
                 /\ incl l base.
Proof.
  intros Hbase Hfs Hmsa.
  apply eqb_other_mode in Hfs. apply eqb_other_mode in Hmsa.
  revert Hbase. unfold base_library, get_spectra_slice_specs.
  rewrite Hfs, Hmsa.
  destruct (str_in "G140" (upper disperser));
    [| destruct (str_in "G235" (upper disperser));
       [| destruct (str_in "G395" (upper disperser)); [| discriminate]]];
    intros Hbase; inversion Hbase; subst base; clear Hbase;
    (split; [reflexivity |]);
    intros mode' [-> | ->]; cbn; eexists;
    (split; [reflexivity |]);
    (split; [vm_compute; lia |]);
    intros g Hg; vm_compute in Hg |- *; tauto.
Qed.

Lemma C10_witness :
  (base_library "g395h" = Some G395_line_library
   /\ "IFU" <> "FS" /\ "IFU" <> "MSA")
  /\ get_spectra_slice_specs "g395h" "IFU" false = Ok G395_line_library
  /\ forall mode', mode' = "FS" \/ mode' = "MSA" ->
       exists l, get_spectra_slice_specs "g395h" mode' false = Ok l
                 /\ (length l < length G395_line_library)%nat
                 /\ incl l G395_line_library.
Proof.
  split; [repeat split; discriminate |].
  apply (C10_other_mode_returns_base "g395h" "IFU" G395_line_library);
    [reflexivity | discriminate | discriminate].
Defined.

End SpecSliceProps.

(** * Properties of the fitting engine *)

Module UtilProps.
Import Util.

Local Open Scope R_scope.

(** ** Definite integrals *)

(** C7: swapping the bounds of the Gaussian and of the Lorentzian definite
    integral negates the value, for every [a], [b], [mu] and [fwhm > 0]. *)
Theorem C7_integrals_antisymmetric {N : Numerics} (a b mu fwhm : R) :
  0 < fwhm ->
  integrate_gaussian a b mu fwhm = - integrate_gaussian b a mu fwhm
  /\ integrate_lorentzian a b mu fwhm = - integrate_lorentzian b a mu fwhm.
Proof.
  intros _. unfold integrate_gaussian, integrate_lorentzian. cbv zeta.
  split; unfold Rdiv; ring.
Qed.

Lemma C7_witness :
  0 < 2.355
  /\ @integrate_gaussian example_numerics (-1) 1 0 2.355
     = - @integrate_gaussian example_numerics 1 (-1) 0 2.355
  /\ integrate_lorentzian (-1) 1 0 2.355
     = - integrate_lorentzian 1 (-1) 0 2.355.
Proof.
  split; [lra |].
  apply (@C7_integrals_antisymmetric example_numerics (-1) 1 0 2.355). lra.
Defined.

(** ** Peak profiles *)

Lemma nth_error_map_some {A B : Type} (f : A -> B) (l : list A) (i : nat)
  (a : A) :
  nth_error l i = Some a -> nth_error (map f l) i = Some (f a).
Proof.
  revert i. induction l as [| h t IH]; intros [| i] H; simpl in *;
    try discriminate; [now inversion H | auto].
Qed.

(** The Gaussian peak profile is 1 at [x = mu]. *)
Lemma get_gaussian_at_mu (x : vector) (mu fwhm : R) (i : nat) :
  nth_error x i = Some mu ->
  nth_error (get_gaussian x mu fwhm 1 0 0) i = Some 1.
Proof.
  intro H. unfold get_gaussian. cbv zeta.
  rewrite (nth_error_map_some _ _ _ _ H). f_equal.
  replace (- (mu - mu) ^ 2 / (2 * (fwhm / 2.355) ^ 2)) with 0
    by (unfold Rdiv; ring).
  rewrite exp_0. ring.
Qed.

(** The Lorentzian peak profile is [2 / (pi * fwhm)] at [x = mu]: it is the
    area-normalised Lorentzian. *)
Lemma get_lorentzian_at_mu (x : vector) (mu fwhm : R) (i : nat) :
  0 < fwhm ->
  nth_error x i = Some mu ->
  nth_error (get_lorentzian x mu fwhm 1 0 0) i = Some (2 / (PI * fwhm)).
Proof.
  intros Hf H. unfold get_lorentzian. cbv zeta.
  rewrite (nth_error_map_some _ _ _ _ H). f_equal.
  replace (mu - mu) with 0 by ring.
  pose proof PI_neq0. field. split; [lra | assumption].
Qed.

(** The Voigt peak profile at [x = mu] is whatever [voigt_profile] is at 0:
    no rescaling to a unit peak takes place. *)
Lemma get_voigt_at_mu {N : Numerics} (x : vector) (mu fwhm gamma : R)
  (i : nat) :
  nth_error x i = Some mu ->
  nth_error (get_voigt x mu fwhm gamma 1 0 0) i
  = Some (voigt_profile 0 (fwhm / 2.355) gamma).
Proof.
  intro H. unfold get_voigt. cbv zeta.
  rewrite (nth_error_map_some _ _ _ _ H). f_equal.
  replace (mu - mu) with 0 by ring. ring.
Qed.

Lemma PI_gt_3 : 3 < PI.
Proof. pose proof PI2_3_2. lra. Qed.

(** C4 at a failing input: at [x = mu = 0] the Gaussian profile of
    [fwhm = 2.355] is 1, but the Lorentzian profile of [fwhm = 2] is [1 / pi]
    and not 1, and the Voigt profile is the value of [voigt_profile] at 0,
    which for the zero-[gamma] profile of [sigma = 1] is [1 / sqrt (2 pi)]
    and not 1. *)
Theorem C4_peak_values :
  get_gaussian [0] 0 2.355 1 0 0 = [1]
  /\ get_lorentzian [0] 0 2 1 0 0 = [/ PI]
  /\ / PI <> 1
  /\ @get_voigt example_numerics [0] 0 2.355 0 1 0 0 = [/ sqrt (2 * PI)]
  /\ / sqrt (2 * PI) <> 1.
Proof.
  pose proof PI_gt_3 as Hpi.
  assert (Hinv : forall r, 1 < r -> / r <> 1).
  { intros r Hr E. assert (r * / r = 1) by (field; lra). rewrite E in H. lra. }
  repeat split.
  - pose proof (get_gaussian_at_mu [0] 0 2.355 0 eq_refl) as H.
    destruct (get_gaussian [0] 0 2.355 1 0 0) as [| v [| ? ?]] eqn:E;
      try discriminate; simpl in H; now inversion H.
  - unfold get_lorentzian, np_mean, np_sum. cbn. f_equal. field.
    apply PI_neq0.
  - apply Hinv. lra.
  - unfold get_voigt, np_mean, np_sum. cbn. f_equal.
    replace (- ((0 - 0) * ((0 - 0) * 1)) / (2 * (2.355 / 2.355 * (2.355 / 2.355 * 1))))
      with 0 by (unfold Rdiv; ring).
    rewrite exp_0. field.
    assert (0 < sqrt (2 * PI)) by (apply sqrt_lt_R0; lra). lra.
  - apply Hinv. rewrite <- sqrt_1. apply sqrt_lt_1_alt. lra.
Qed.

(** ** Segment cut *)

Lemma Rltb_lt (a b : R) : Rltb a b = true <-> a < b.
Proof. unfold Rltb. destruct (Rlt_dec a b); split; intros; auto; discriminate. Qed.

Lemma in_window_spec (start end_ : R) (sample : R * R * R) :
  in_window start end_ sample = true
  <-> start < fst (fst sample) < end_.
Proof.
  unfold in_window. rewrite andb_true_iff, !Rltb_lt. tauto.
Qed.

Section Compress.
Variable keep : R -> bool.

Lemma compress_length (ws xs : vector) :
  length xs = length ws ->
  length (compress (map keep ws) xs) = length (compress (map keep ws) ws).
Proof.
  revert xs. induction ws as [| w ws IH]; intros [| x xs] H; simpl in *;
    try discriminate; [reflexivity |].
  destruct (keep w); simpl; auto.
Qed.

Lemma compress_is_filter (ws : vector) :
  compress (map keep ws) ws = filter keep ws.
Proof.
  induction ws as [| w ws IH]; simpl; [reflexivity |].
  destruct (keep w); now rewrite IH.
Qed.

(** Cutting three parallel arrays with one mask is filtering the samples. *)
Lemma compress_samples (ws fs ns : vector) :
  length fs = length ws -> length ns = length ws ->
  samples (compress (map keep ws) ws) (compress (map keep ws) fs)
          (compress (map keep ws) ns)
  = filter (fun sample => keep (fst (fst sample))) (samples ws fs ns).
Proof.
  unfold samples. revert fs ns.
  induction ws as [| w ws IH]; intros [| f fs] [| n ns] Hf Hn; simpl in *;
    try discriminate; [reflexivity |].
  destruct (keep w); simpl; rewrite IH; auto.
Qed.

End Compress.

(** C5: on three parallel arrays the cut returns three arrays of one common
    length, whose samples are exactly the samples of the input with
    [start < wavelength < end], in their order and with their pairing; a
    wavelength equal to either bound is left out, and when no wavelength
    qualifies the three arrays are empty and nothing is raised. *)
Theorem C5_get_spectra_cuts
  (start end_ : R) (wavelengths spectra_1d noise_1d : vector) :
  length spectra_1d = length wavelengths ->
  length noise_1d = length wavelengths ->
  exists wavelengths_cut spectra_cut noise_cut,
    get_spectra_cuts start end_ wavelengths spectra_1d noise_1d
    = Ok (wavelengths_cut, spectra_cut, noise_cut)
    /\ length spectra_cut = length wavelengths_cut
    /\ length noise_cut = length wavelengths_cut
    /\ samples wavelengths_cut spectra_cut noise_cut
       = filter (in_window start end_)
           (samples wavelengths spectra_1d noise_1d)
    /\ (forall w, In w wavelengths_cut
                  <-> In w wavelengths /\ start < w < end_)
    /\ ~ In start wavelengths_cut /\ ~ In end_ wavelengths_cut
    /\ ((forall w, In w wavelengths -> ~ start < w < end_) ->
        wavelengths_cut = [] /\ spectra_cut = [] /\ noise_cut = []).
Proof.
  intros Hs Hn.
  set (keep := fun w => Rltb start w && Rltb w end_).
  assert (Hkeep : forall w, keep w = true <-> start < w < end_).
  { intro w. unfold keep. rewrite andb_true_iff, !Rltb_lt. tauto. }
  exists (compress (map keep wavelengths) wavelengths),
         (compress (map keep wavelengths) spectra_1d),
         (compress (map keep wavelengths) noise_1d).
  assert (Hin : forall w, In w (compress (map keep wavelengths) wavelengths)
                          <-> In w wavelengths /\ start < w < end_).
  { intro w. rewrite compress_is_filter, filter_In, Hkeep. tauto. }
  split.
  { unfold get_spectra_cuts, bool_index. fold keep.
    rewrite length_map, Nat.eqb_refl, Hs, Hn, Nat.eqb_refl. reflexivity. }
  split; [now apply compress_length |].
  split; [now apply compress_length |].
  split; [now apply compress_samples |].
  split; [exact Hin |].
  split; [intro H; apply Hin in H; lra |].
  split; [intro H; apply Hin in H; lra |].
  intro Hnone.
  assert (Hw : compress (map keep wavelengths) wavelengths = []).
  { destruct (compress (map keep wavelengths) wavelengths) as [| w l] eqn:E;
      [reflexivity |].
    destruct (proj1 (Hin w) (or_introl eq_refl)) as [Hw1 Hw2].
    now destruct (Hnone w Hw1). }
  pose proof (compress_length keep wavelengths spectra_1d Hs) as Ls.
  pose proof (compress_length keep wavelengths noise_1d Hn) as Ln.
  rewrite Hw in Ls, Ln. simpl in Ls, Ln.
  apply length_zero_iff_nil in Ls. apply length_zero_iff_nil in Ln.
  now rewrite Ls, Ln.
Qed.

Lemma C5_witness :
  (length [10; 20; 30; 40] = length [1; 2; 3; 4]
   /\ length [0.1; 0.2; 0.3; 0.4] = length [1; 2; 3; 4])
  /\ exists wavelengths_cut spectra_cut noise_cut,
    get_spectra_cuts 1 4 [1; 2; 3; 4] [10; 20; 30; 40] [0.1; 0.2; 0.3; 0.4]
    = Ok (wavelengths_cut, spectra_cut, noise_cut)
    /\ length spectra_cut = length wavelengths_cut
    /\ length noise_cut = length wavelengths_cut
    /\ samples wavelengths_cut spectra_cut noise_cut
       = filter (in_window 1 4)
           (samples [1; 2; 3; 4] [10; 20; 30; 40] [0.1; 0.2; 0.3; 0.4])
    /\ (forall w, In w wavelengths_cut
                  <-> In w [1; 2; 3; 4] /\ 1 < w < 4)
    /\ ~ In 1 wavelengths_cut /\ ~ In 4 wavelengths_cut
    /\ ((forall w, In w [1; 2; 3; 4] -> ~ 1 < w < 4) ->
        wavelengths_cut = [] /\ spectra_cut = [] /\ noise_cut = []).
Proof.
  split; [split; reflexivity |].
  apply (C5_get_spectra_cuts 1 4 [1; 2; 3; 4] [10; 20; 30; 40]
           [0.1; 0.2; 0.3; 0.4]); reflexivity.
Defined.

(** The cut of the example above, evaluated. *)
Example get_spectra_cuts_example :
  get_spectra_cuts 1 4 [1; 2; 3; 4] [10; 20; 30; 40] [0.1; 0.2; 0.3; 0.4]
  = Ok ([2; 3], [20; 30], [0.2; 0.3]).
Proof.
  unfold get_spectra_cuts, bool_index, Rltb. cbn.
  repeat (destruct (Rlt_dec _ _); try lra). reflexivity.
Qed.

(** Arrays of different lengths are refused. *)
Example get_spectra_cuts_mismatch :
  get_spectra_cuts 1 4 [1; 2] [10] [0.1; 0.2] = Raise IndexError.
Proof. reflexivity. Qed.

(** ** Composite model builder *)

Section Builder.
Context {N : Numerics}.

Lemma map2_length {A B C : Type} (f : A -> B -> C) (xs : list A)
  (ys : list B) :
  length xs = length ys -> length (map2 f xs ys) = length xs.
Proof.
  revert ys. induction xs as [| x xs IH]; intros [| y ys] H; simpl in *;
    try discriminate; auto.
Qed.

Lemma integrate_voigt_length (a b : vector) (mu fwhm gamma : R) :
  length a = length b ->
  length (integrate_voigt a b mu fwhm gamma) = length a.
Proof.
  intro H. unfold integrate_voigt.
  rewrite length_app, length_map, length_combine, repeat_length. lia.
Qed.

Lemma getitem_0_1 (x : vector) :
  (2 <= length x)%nat ->
  exists x0 x1, getitem x 0 = Ok x0 /\ getitem x 1 = Ok x1.
Proof.
  destruct x as [| x0 [| x1 x]]; simpl; intro H; try lia.
  now exists x0, x1.
Qed.

(** On a grid of at least two pixels every known line type yields a model
    with one value per pixel. *)
Lemma get_spectra_model_returns
  (x : vector) (mu fwhm amp c_amp c_slope : R) (line_type : string)
  (voigt_gamma : R) :
  (2 <= length x)%nat -> known_line_type line_type ->
  exists m,
    get_spectra_model x mu fwhm amp c_amp c_slope line_type voigt_gamma
    = Ok m
    /\ length m = length x.
Proof.
  intros Hx Hk. destruct (getitem_0_1 x Hx) as [x0 [x1 [H0 H1]]].
  unfold get_spectra_model.
  destruct Hk as [-> | [-> | ->]]; cbn [String.eqb Ascii.eqb Bool.eqb];
    cbv iota.
  - unfold get_pixel_integrated_gaussian. rewrite H1, H0. cbn [rbind].
    eexists; split; [reflexivity | apply length_map].
  - unfold get_pixel_integrated_voigt. rewrite H1, H0. cbn [rbind].
    eexists; split; [reflexivity |].
    rewrite map2_length; rewrite integrate_voigt_length;
      rewrite ?length_map; reflexivity.
  - unfold get_pixel_integrated_lorentzian. rewrite H1, H0. cbn [rbind].
    eexists; split; [reflexivity | apply length_map].
Qed.






(** The loop returns one model per zipped pair, each the model of its pair. *)
Lemma line_models_loop_returns
  (velocity : R) (wavelengths : vector) (line_type : string)
  (voigt_gamma : R) (pairs : list (R * R)) :
  (2 <= length wavelengths)%nat -> known_line_type line_type ->
  exists models,
    line_models_loop velocity wavelengths line_type voigt_gamma pairs
    = Ok models
    /\ Forall2
         (fun pair m =>
            get_spectra_model wavelengths
              (snd pair * (1 + velocity / light_speed)) (fst pair) 1 0 0
              line_type voigt_gamma = Ok m
            /\ length m = length wavelengths)
         pairs models.
Proof.
  intros Hx Hk. induction pairs as [| [fwhm line] rest [models [E F]]].
  - exists []. split; [reflexivity | constructor].
  - destruct (get_spectra_model_returns wavelengths
                (line * (1 + velocity / light_speed)) fwhm 1 0 0 line_type
                voigt_gamma Hx Hk) as [m [Em Lm]].
    exists (m :: models). split.
    + simpl. rewrite Em. cbn [rbind]. rewrite E. reflexivity.
    + constructor; [now split | exact F].
Qed.

Lemma append_trend_returns (models : list vector) (n : nat) :
  models <> [] ->
  Forall (fun m => length m = n) models ->
  append_trend models = Ok (models ++ [repeat 1 n; arange n]).
Proof.
  intros Hne Hall. unfold append_trend.
  destruct (rev models) as [| line_model rest] eqn:E.
  - apply (f_equal (@rev vector)) in E. rewrite rev_involutive in E.
    now destruct Hne.
  - assert (Hin : In line_model models).
    { apply in_rev. rewrite E. now left. }
    rewrite Forall_forall in Hall. specialize (Hall _ Hin).
    rewrite Hall. unfold ones_like.
    replace (map (fun _ : R => 1) line_model) with (repeat 1 n);
      [reflexivity |].
    rewrite <- Hall. clear. induction line_model; simpl; congruence.
Qed.

(** For a float or a sequence, [zip] iterates over [widths_of]. *)
Lemma iter_expand_fwhms (fwhms : fwhms_arg) (lines : vector) :
  float_or_sequence fwhms ->
  iter_fwhms (expand_fwhms fwhms lines) = Ok (widths_of fwhms lines).
Proof. destruct fwhms; simpl; intro H; now try destruct H. Qed.

Lemma fwhms_match_iterable (fwhms : fwhms_arg) (lines : vector) :
  fwhms_match fwhms lines -> float_or_sequence fwhms.
Proof. destruct fwhms; simpl; auto. Qed.

Lemma expand_fwhms_nth (fwhms : fwhms_arg) (lines : vector) (i : nat) :
  fwhms_match fwhms lines -> (i < length lines)%nat ->
  length (widths_of fwhms lines) = length lines
  /\ nth i (widths_of fwhms lines) 0 = fwhm_of fwhms i.
Proof.
  destruct fwhms as [fwhm | n | fs]; simpl; intros Hm Hi;
    [| easy | now split].
  unfold ones_like. rewrite map_map, length_map. split; [reflexivity |].
  revert i Hi. induction lines as [| l lines IH]; intros [| i] Hi;
    simpl in *; try lia; [ring | apply IH; lia].
Qed.



(** [line_models] returns the per-line models of the loop followed by the
    constant and the ramp. *)
Lemma line_models_returns
  (velocity : R) (fwhms : fwhms_arg) (wavelengths lines : vector)
  (line_type : string) (voigt_gamma : R) :
  lines <> [] -> (2 <= length wavelengths)%nat ->
  fwhms_match fwhms lines -> known_line_type line_type ->
  exists per_line,
    line_models velocity fwhms wavelengths lines line_type voigt_gamma
    = Ok (per_line
            ++ [repeat 1 (length wavelengths); arange (length wavelengths)])
    /\ length per_line = length lines
    /\ Forall2
         (fun pair m =>
            get_spectra_model wavelengths
              (snd pair * (1 + velocity / light_speed)) (fst pair) 1 0 0
              line_type voigt_gamma = Ok m
            /\ length m = length wavelengths)
         (combine (widths_of fwhms lines) lines) per_line.
Proof.
  intros Hne Hx Hm Hk.
  destruct (line_models_loop_returns velocity wavelengths line_type
              voigt_gamma (combine (widths_of fwhms lines) lines) Hx Hk)
    as [per_line [E F]].
  assert (Hlen : length per_line = length lines).
  { rewrite <- (Forall2_length F), length_combine.
    destruct lines as [| l lines]; [now destruct Hne |].
    destruct (expand_fwhms_nth fwhms (l :: lines) 0 Hm) as [-> _];
      [simpl; lia | apply Nat.min_id]. }
  exists per_line. split; [| now split].
  unfold line_models. cbv zeta.
  rewrite (iter_expand_fwhms _ _ (fwhms_match_iterable _ _ Hm)).
  cbn [rbind]. rewrite E. cbn [rbind].
  apply append_trend_returns.
  - intros ->. destruct lines; [now destruct Hne | discriminate Hlen].
  - clear -F. induction F as [| p m ps ms [_ L] F IH]; constructor; auto.
Qed.


End Builder.



(** ** Weighted solver *)

Lemma inverse_variance_weight (n : R) : 0 < n -> sqrt (1 / n ^ 2) = / n.
Proof.
  intro H. replace (1 / n ^ 2) with (Rsqr (/ n)) by (unfold Rsqr; field; lra).
  apply sqrt_Rsqr. left. now apply Rinv_0_lt_compat.
Qed.

Lemma map2_map_r {A B B' C : Type} (f : A -> B' -> C) (g : B -> B')
  (xs : list A) (ys : list B) :
  map2 f xs (map g ys) = map2 (fun x y => f x (g y)) xs ys.
Proof.
  revert ys. induction xs as [| x xs IH]; intros [| y ys]; simpl; auto.
  now rewrite IH.
Qed.

Lemma map2_ext_Forall {A C : Type} (P : R -> Prop) (f g : A -> R -> C)
  (xs : list A) (ns : vector) :
  (forall x n, P n -> f x n = g x n) -> Forall P ns ->
  map2 f xs ns = map2 g xs ns.
Proof.
  intros Hfg Hall. revert xs.
  induction Hall as [| n ns Hn Hall IH]; intros [| x xs]; simpl; auto.
  now rewrite Hfg, IH.
Qed.

Lemma broadcast2_parallel {A B C : Type} (f : A -> B -> C) (xs : list A)
  (ys : list B) :
  length xs = length ys -> broadcast2 f xs ys = Ok (map2 f xs ys).
Proof. intro H. unfold broadcast2. now rewrite H, Nat.eqb_refl. Qed.

(** On parallel arrays the weighted system is the row-wise scaled one. *)
Lemma weighted_system_parallel (A : matrix) (b noise : vector) :
  length A = length noise -> length b = length noise ->
  weighted_system A b noise = Ok (weigh_rows A noise, weigh b noise).
Proof.
  intros HA Hb. unfold weighted_system. cbv zeta.
  rewrite !broadcast2_parallel by (now rewrite !length_map).
  cbn [rbind]. unfold weigh_rows, weigh.
  now rewrite !map_map, !map2_map_r.
Qed.

(** With positive noise the weight of a row is the inverse of its noise. *)
Lemma weigh_by_inverse_noise (A : matrix) (b noise : vector) :
  Forall (fun n => 0 < n) noise ->
  weigh_rows A noise = map2 (fun row n => map (fun a => a / n) row) A noise
  /\ weigh b noise = map2 Rdiv b noise.
Proof.
  intro Hpos. unfold weigh_rows, weigh. split.
  - apply (map2_ext_Forall (fun n => 0 < n)); [| exact Hpos].
    intros row n Hn. now rewrite inverse_variance_weight.
  - apply (map2_ext_Forall (fun n => 0 < n)); [| exact Hpos].
    intros v n Hn. now rewrite inverse_variance_weight.
Qed.

Lemma transpose_length (cols : list vector) :
  length (transpose cols) = length (hd [] cols).
Proof. unfold transpose. now rewrite length_map, length_seq. Qed.

Lemma transpose_rows (cols : list vector) :
  Forall (fun row => length row = length cols) (transpose cols).
Proof.
  unfold transpose. apply Forall_forall. intros row Hin.
  apply in_map_iff in Hin. destruct Hin as [i [<- _]]. apply length_map.
Qed.

Lemma matvec_returns (A : matrix) (c : vector) :
  Forall (fun row => length row = length c) A ->
  matvec A c = Ok (map (fun row => dot row c) A).
Proof.
  intro H. unfold matvec.
  replace (forallb _ A) with true; [reflexivity |].
  symmetry. apply forallb_forall. intros row Hin.
  rewrite Forall_forall in H. apply Nat.eqb_eq. now apply H.
Qed.

Lemma weigh_rows_hd (A : matrix) (noise : vector) (k : nat) :
  Forall (fun row => length row = k) A ->
  A <> [] -> noise <> [] ->
  length (hd [] (weigh_rows A noise)) = k.
Proof.
  intros Hrows HA Hn. destruct A as [| row A]; [now destruct HA |].
  destruct noise as [| n noise]; [now destruct Hn |].
  simpl. rewrite length_map. now inversion Hrows.
Qed.

Section Solver.
Context {N : Numerics}.

(** One run of [best_linear_fit_model], by the outcome of [lstsq]: the
    result and the solver calls made. *)
Lemma best_linear_fit_model_run
  (velocity : R) (fwhms : fwhms_arg) (wavelengths spectra noise lines : vector)
  (line_type : string) (voigt_gamma : R) (get_amp : bool)
  (models : list vector) :
  line_models velocity fwhms wavelengths lines line_type voigt_gamma
  = Ok models ->
  length (hd [] models) = length noise ->
  length spectra = length noise ->
  let A := transpose models in
  let Aw := weigh_rows A noise in
  let bw := weigh spectra noise in
  let finish := fun c =>
    rbind (matvec A c) (fun lm => Ok (fit_value get_amp lm c)) in
  run_fit (best_linear_fit_model velocity fwhms wavelengths spectra noise
             lines line_type voigt_gamma get_amp)
  = match lstsq Aw bw with
    | Ok c => (finish c, [LstsqCall Aw bw])
    | Raise LinAlgError =>
        (rbind (nnls Aw bw) finish, [LstsqCall Aw bw; NnlsCall Aw bw])
    | Raise e => (Raise e, [LstsqCall Aw bw])
    end.
Proof.
  intros Hm HA Hb. cbv zeta.
  unfold run_fit, best_linear_fit_model, fit_bind, fit_lift. rewrite Hm.
  rewrite weighted_system_parallel by (now rewrite ?transpose_length).
  cbn [fst snd].
  unfold try_except_LinAlgError, call_lstsq, call_nnls, fit_ret, fit_value.
  cbn [app].
  destruct (lstsq _ _) as [c | []]; cbn [rbind app]; try reflexivity.
  - destruct (matvec _ c); reflexivity.
  - destruct (nnls _ _) as [c | e]; cbn [rbind]; [| reflexivity].
    destruct (matvec _ c); reflexivity.
Qed.

(** C1: on a well-formed segment with positive noise the amplitudes are
    first solved by [lstsq] on the inverse-variance-weighted system; [nnls]
    is called if and only if that solve raised [LinAlgError], and then on the
    same weighted system; on that path, when [nnls] returns, the fit returns
    with its coefficients, all non-negative, and the only exception that can
    reach the caller is one [nnls] itself raised. *)
Theorem C1_weighted_solver_fallback
  (velocity : R) (fwhms : fwhms_arg) (wavelengths spectra noise lines : vector)
  (line_type : string) (voigt_gamma : R) (get_amp : bool) :
  solver_contract N ->
  lines <> [] -> (2 <= length wavelengths)%nat ->
  fwhms_match fwhms lines -> known_line_type line_type ->
  length spectra = length wavelengths ->
  length noise = length wavelengths ->
  Forall (fun n => 0 < n) noise ->
  exists models,
    line_models velocity fwhms wavelengths lines line_type voigt_gamma
    = Ok models
    /\ let A := transpose models in
       let Aw := weigh_rows A noise in
       let bw := weigh spectra noise in
       let out :=
         run_fit (best_linear_fit_model velocity fwhms wavelengths spectra
                    noise lines line_type voigt_gamma get_amp) in
       Aw = map2 (fun row n => map (fun a => a / n) row) A noise
       /\ bw = map2 Rdiv spectra noise
       /\ hd_error (snd out) = Some (LstsqCall Aw bw)
       /\ (In (NnlsCall Aw bw) (snd out) <-> lstsq Aw bw = Raise LinAlgError)
       /\ (forall A' b', In (NnlsCall A' b') (snd out) -> A' = Aw /\ b' = bw)
       /\ (forall c, lstsq Aw bw = Ok c ->
             out = (Ok (fit_value get_amp (map (fun row => dot row c) A) c),
                    [LstsqCall Aw bw]))
       /\ (lstsq Aw bw = Raise LinAlgError ->
           snd out = [LstsqCall Aw bw; NnlsCall Aw bw]
           /\ (forall c, nnls Aw bw = Ok c ->
                 Forall (fun v => 0 <= v) c
                 /\ fst out
                    = Ok (fit_value get_amp (map (fun row => dot row c) A) c))
           /\ (forall e, fst out = Raise e -> nnls Aw bw = Raise e)).
Proof.
  intros HC Hne Hx Hm Hk Hs Hn Hpos.
  destruct (line_models_returns velocity fwhms wavelengths lines line_type
              voigt_gamma Hne Hx Hm Hk) as [per_line [E [Hlen F]]].
  set (models := per_line ++ [repeat 1 (length wavelengths);
                              arange (length wavelengths)]) in *.
  assert (Hhd : length (hd [] models) = length noise).
  { rewrite Hn. unfold models. destruct F as [| p m ps ms [_ L] F]; [| exact L].
    apply repeat_length. }
  exists models. split; [exact E |].
  pose proof (best_linear_fit_model_run velocity fwhms wavelengths spectra
                noise lines line_type voigt_gamma get_amp models E Hhd
                (eq_trans Hs (eq_sym Hn))) as Hrun.
  cbv zeta in Hrun |- *.
  set (A := transpose models) in *.
  set (Aw := weigh_rows A noise) in *.
  set (bw := weigh spectra noise) in *.
  destruct (weigh_by_inverse_noise A spectra noise Hpos) as [HAw Hbw].
  assert (Hshape : forall c, length c = length (hd [] Aw) ->
                     matvec A c = Ok (map (fun row => dot row c) A)).
  { intros c Hc. apply matvec_returns.
    assert (Hk' : length (hd [] Aw) = length models).
    { apply weigh_rows_hd; [apply transpose_rows | |].
      - intro HA. apply (f_equal (@length (list R))) in HA.
        unfold A in HA. rewrite transpose_length, Hhd in HA. simpl in HA. lia.
      - intros ->. simpl in Hn. lia. }
    rewrite Hc, Hk'. apply transpose_rows. }
  rewrite Hrun. clear Hrun.
  split; [exact HAw |]. split; [exact Hbw |].
  destruct (lstsq Aw bw) as [c | e] eqn:EL.
  - pose proof (Hshape c (lstsq_shape N HC _ _ _ EL)) as Hmv.
    rewrite Hmv. cbn [rbind fst snd hd_error].
    split; [reflexivity |].
    split; [split; [intros [H | []]; discriminate H | discriminate] |].
    split; [intros A' b' [H | []]; discriminate H |].
    split; [intros c' Hc'; now inversion Hc' | discriminate].
  - assert (Hnnls : forall c, nnls Aw bw = Ok c ->
                      Forall (fun v => 0 <= v) c
                      /\ rbind (nnls Aw bw)
                           (fun c0 => rbind (matvec A c0)
                              (fun lm => Ok (fit_value get_amp lm c0)))
                         = Ok (fit_value get_amp
                                 (map (fun row => dot row c) A) c)).
    { intros c Hc. split; [exact (nnls_nonneg N HC _ _ _ Hc) |].
      rewrite Hc. cbn [rbind].
      now rewrite (Hshape c (nnls_shape N HC _ _ _ Hc)). }
    destruct e; cbn [fst snd hd_error];
      (split; [reflexivity |]);
      try (split; [split; [intros [H | []]; discriminate H | discriminate] |];
           split; [intros A' b' [H | []]; discriminate H |];
           split; [discriminate | discriminate]).
    split; [split; [reflexivity | intros _; right; now left] |].
    split; [intros A' b' [H | [H | []]]; [discriminate H | now inversion H] |].
    split; [discriminate |].
    intros _. split; [reflexivity |]. split; [exact Hnnls |].
    intros e He. destruct (nnls Aw bw) as [c | e'] eqn:EN.
    + destruct (Hnnls c eq_refl) as [_ Hok]. rewrite Hok in He. discriminate He.
    + cbn [rbind] in He. now inversion He.
Qed.

End Solver.

Lemma example_numerics_contract : solver_contract example_numerics.
Proof.
  split; simpl; intros A b c H; try discriminate; inversion H; subst c.
  - apply length_map.
  - apply Forall_forall. intros v Hv. apply in_map_iff in Hv.
    destruct Hv as [? [<- _]]. lra.
Qed.

Lemma example_noise_positive : Forall (fun n => 0 < n) example_noise.
Proof. unfold example_noise. repeat constructor; lra. Qed.

Lemma C1_witness :
  (solver_contract example_numerics
   /\ example_lines <> [] /\ (2 <= length example_wavelengths)%nat
   /\ fwhms_match (FwhmFloat 3) example_lines /\ known_line_type "gaussian"
   /\ length example_spectra = length example_wavelengths
   /\ length example_noise = length example_wavelengths
   /\ Forall (fun n => 0 < n) example_noise)
  /\ exists models,
    @line_models example_numerics 100 (FwhmFloat 3) example_wavelengths
      example_lines "gaussian" 1
    = Ok models
    /\ let A := transpose models in
       let Aw := weigh_rows A example_noise in
       let bw := weigh example_spectra example_noise in
       let out :=
         run_fit (@best_linear_fit_model example_numerics 100 (FwhmFloat 3)
                    example_wavelengths example_spectra example_noise
                    example_lines "gaussian" 1 true) in
       Aw = map2 (fun row n => map (fun a => a / n) row) A example_noise
       /\ bw = map2 Rdiv example_spectra example_noise
       /\ hd_error (snd out) = Some (LstsqCall Aw bw)
       /\ (In (NnlsCall Aw bw) (snd out)
           <-> @lstsq example_numerics Aw bw = Raise LinAlgError)
       /\ (forall A' b', In (NnlsCall A' b') (snd out) -> A' = Aw /\ b' = bw)
       /\ (forall c, @lstsq example_numerics Aw bw = Ok c ->
             out = (Ok (fit_value true (map (fun row => dot row c) A) c),
                    [LstsqCall Aw bw]))
       /\ (@lstsq example_numerics Aw bw = Raise LinAlgError ->
           snd out = [LstsqCall Aw bw; NnlsCall Aw bw]
           /\ (forall c, @nnls example_numerics Aw bw = Ok c ->
                 Forall (fun v => 0 <= v) c
                 /\ fst out
                    = Ok (fit_value true (map (fun row => dot row c) A) c))
           /\ (forall e, fst out = Raise e ->
                 @nnls example_numerics Aw bw = Raise e)).
Proof.
  split.
  - split; [exact example_numerics_contract |].
    split; [discriminate |]. split; [simpl; lia |]. split; [exact I |].
    split; [now left |]. split; [reflexivity |]. split; [reflexivity |].
    exact example_noise_positive.
  - apply (@C1_weighted_solver_fallback example_numerics 100 (FwhmFloat 3)
             example_wavelengths example_spectra example_noise example_lines
             "gaussian" 1 true);
      [exact example_numerics_contract | discriminate | simpl; lia | exact I
      | now left | reflexivity | reflexivity | exact example_noise_positive].
Defined.

(** ** Coupled two-spectrum solver *)

Section Coupled.
Context {N : Numerics}.






Lemma simultaneous_loop_returns
  (velocity_1 velocity_2 : R) (wavelengths_1 wavelengths_2 : vector)
  (triples : list (R * R * R)) :
  (2 <= length wavelengths_1)%nat -> (2 <= length wavelengths_2)%nat ->
  exists per_line_1 per_line_2,
    simultaneous_loop velocity_1 velocity_2 wavelengths_1 wavelengths_2
      triples
    = Ok (per_line_1, per_line_2)
    /\ length per_line_1 = length triples
    /\ length per_line_2 = length triples
    /\ Forall (fun m => length m = length wavelengths_1) per_line_1
    /\ Forall (fun m => length m = length wavelengths_2) per_line_2
    /\ Forall2
         (fun triple m =>
            get_spectra_model wavelengths_2
              (snd triple * (1 + velocity_2 / light_speed))
              (snd (fst triple)) 1 0 0 "gaussian" 1.0 = Ok m)
         triples per_line_2.
Proof.
  intros H1 H2.
  induction triples as [| [[fwhm_1 fwhm_2] line] rest IH].
  - exists [], []. repeat split; constructor.
  - destruct IH as [ms1 [ms2 [E [L1 [L2 [F1 [F2 F]]]]]]].
    destruct (get_spectra_model_returns wavelengths_1
                (line * (1 + velocity_1 / light_speed)) fwhm_1 1 0 0
                "gaussian" 1.0 H1 (or_introl eq_refl)) as [m1 [E1 Lm1]].
    destruct (get_spectra_model_returns wavelengths_2
                (line * (1 + velocity_2 / light_speed)) fwhm_2 1 0 0
                "gaussian" 1.0 H2 (or_introl eq_refl)) as [m2 [E2 Lm2]].
    exists (m1 :: ms1), (m2 :: ms2).
    split; [simpl; rewrite E1; cbn [rbind]; rewrite E2; cbn [rbind];
            rewrite E; reflexivity |].
    simpl. repeat split; auto.
Qed.

Lemma nth_ones_like (t : vector) (i : nat) :
  (i < length t)%nat -> nth i (ones_like t) 0 = 1.
Proof.
  unfold ones_like. revert i. induction t as [| v t IH]; intros [| i] H;
    simpl in *; try lia; [reflexivity | apply IH; lia].
Qed.

Lemma nth_arange (n i : nat) : (i < n)%nat -> nth i (arange n) 0 = INR i.
Proof.
  intro H. unfold arange. change 0 with (INR 0).
  now rewrite map_nth, seq_nth.
Qed.

(** Row [i] of [A_2] is [template_i; 1; i]. *)
Lemma design_matrix_2_rows (t : vector) :
  design_matrix_2 t = map (fun i => [nth i t 0; 1; INR i]) (seq 0 (length t)).
Proof.
  unfold design_matrix_2, transpose. simpl hd. apply map_ext_in.
  intros i Hi. apply in_seq in Hi. simpl.
  rewrite nth_ones_like, nth_arange by lia. reflexivity.
Qed.

(** [np.array(cols).T @ c], pixel by pixel. *)
Lemma matvec_transpose (cols : list vector) (c : vector) :
  length c = length cols ->
  matvec (transpose cols) c
  = Ok (map (fun i => dot (map (fun m => nth i m 0) cols) c)
          (seq 0 (length (hd [] cols)))).
Proof.
  intro H. rewrite matvec_returns.
  - unfold transpose. now rewrite map_map.
  - rewrite H. apply transpose_rows.
Qed.












End Coupled.


End UtilProps.

(** * Further properties of the line catalogue *)

Module SpecSliceExtra.
Import SpecSlice.

Local Open Scope string_scope.

Lemma upper_ascii_idempotent (c : ascii) :
  upper_ascii (upper_ascii c) = upper_ascii c.
Proof. destruct c as [[] [] [] [] [] [] [] []]; reflexivity. Qed.

Lemma upper_idempotent (s : string) : upper (upper s) = upper s.
Proof.
  induction s as [| c s IH]; simpl; [reflexivity |].
  now rewrite upper_ascii_idempotent, IH.
Qed.

(** X1: whatever the disperser, the mode and [extend], the lookup either
    returns a list, when a tag occurs in the upper-cased identifier, or raises
    [ValueError], when none does; no [pop] ever leaves its list.  What it
    returns is drawn from the branch's list literal, joined by
    [extended_lines] only when [extend] is on. *)
Theorem X1_lookup_outcome (disperser mode : string) (extend : bool) :
  match base_library disperser with
  | Some base =>
      exists l,
        get_spectra_slice_specs disperser mode extend = Ok l
        /\ incl l (if extend then (extended_lines ++ base)%list else base)
  | None =>
      exists msg,
        get_spectra_slice_specs disperser mode extend
        = Raise (ValueError msg)
  end.
Proof.
  unfold base_library, get_spectra_slice_specs.
  destruct (str_in "G140" (upper disperser));
    [| destruct (str_in "G235" (upper disperser));
       [| destruct (str_in "G395" (upper disperser));
          [| eexists; reflexivity]]];
    destruct (String.eqb mode "FS");
    try destruct (String.eqb mode "MSA");
    destruct extend;
    (eexists; split; [reflexivity |]);
    intros g Hg; vm_compute in Hg |- *; tauto.
Qed.

(** X2: the lookup reads the disperser through [upper] only: an identifier
    and its upper-cased form, and any two identifiers that differ in letter
    case alone, get the same answer. *)
Theorem X2_disperser_case_insensitive
  (disperser disperser' mode : string) (extend : bool) :
  get_spectra_slice_specs disperser mode extend
  = get_spectra_slice_specs (upper disperser) mode extend
  /\ (upper disperser = upper disperser' ->
      get_spectra_slice_specs disperser mode extend
      = get_spectra_slice_specs disperser' mode extend).
Proof.
  unfold get_spectra_slice_specs. rewrite upper_idempotent.
  split; [reflexivity | now intros ->].
Qed.

Lemma X2_witness :
  upper "g235h" = upper "G235h"
  /\ get_spectra_slice_specs "g235h" "FS" false
     = get_spectra_slice_specs (upper "g235h") "FS" false
  /\ (upper "g235h" = upper "G235h" ->
      get_spectra_slice_specs "g235h" "FS" false
      = get_spectra_slice_specs "G235h" "FS" false).
Proof.
  split; [reflexivity |].
  exact (X2_disperser_case_insensitive "g235h" "G235h" "FS" false).
Defined.

(** X3: in the G140 branch [extend] trades groups rather than adding them:
    the list returned with [extend] on is [extended_lines] followed by the
    list returned with [extend] off without its last two groups, so both
    lists have the same number of groups, for every mode. *)
Theorem X3_g140_extend_trades_groups (disperser mode : string) :
  str_in "G140" (upper disperser) = true ->
  exists l0,
    get_spectra_slice_specs disperser mode false = Ok l0
    /\ get_spectra_slice_specs disperser mode true
       = Ok (extended_lines ++ removelast (removelast l0))%list
    /\ length (extended_lines ++ removelast (removelast l0))%list = length l0.
Proof.
  intro Hd. unfold get_spectra_slice_specs. rewrite Hd.
  destruct (String.eqb mode "FS"); [| destruct (String.eqb mode "MSA")];
    eexists; repeat split.
Qed.

Lemma X3_witness :
  str_in "G140" (upper "g140h") = true
  /\ exists l0,
       get_spectra_slice_specs "g140h" "FS" false = Ok l0
       /\ get_spectra_slice_specs "g140h" "FS" true
          = Ok (extended_lines ++ removelast (removelast l0))%list
       /\ length (extended_lines ++ removelast (removelast l0))%list = length l0.
Proof.
  split; [reflexivity |].
  apply (X3_g140_extend_trades_groups "g140h" "FS"). reflexivity.
Defined.

(** X4: every list the lookup returns is in ascending wavelength order with
    disjoint windows: each group's window is non-empty
    ([min_lambda < max_lambda]) and ends before the window of every later
    group begins. *)
Theorem X4_windows_ascending_disjoint
  (disperser mode : string) (extend : bool) (l : list line_spec) :
  get_spectra_slice_specs disperser mode extend = Ok l ->
  Forall (fun g => (min_lambda g < max_lambda g)%Q) l
  /\ StronglySorted (fun g h => (max_lambda g < min_lambda h)%Q) l.
Proof.
  unfold get_spectra_slice_specs.
  destruct (str_in "G140" (upper disperser));
    [| destruct (str_in "G235" (upper disperser));
       [| destruct (str_in "G395" (upper disperser)); [| discriminate]]];
    destruct (String.eqb mode "FS");
    try destruct (String.eqb mode "MSA");
    destruct extend;
    intros H; vm_compute in H; inversion H; subst l; clear H;
    split; repeat constructor.
Qed.

Lemma X4_witness :
  get_spectra_slice_specs "G395M" "MSA" false
  = Ok [G395_Pf_eta; G395_He_I; G395_Hu_zeta]
  /\ Forall (fun g => (min_lambda g < max_lambda g)%Q)
       [G395_Pf_eta; G395_He_I; G395_Hu_zeta]
  /\ StronglySorted (fun g h => (max_lambda g < min_lambda h)%Q)
       [G395_Pf_eta; G395_He_I; G395_Hu_zeta].
Proof.
  split; [reflexivity |].
  apply (X4_windows_ascending_disjoint "G395M" "MSA" false). reflexivity.
Defined.

(** X5: in the G140 and G395 branches every returned group has as many line
    names as line wavelengths; in the G235 branch every returned list holds
    the Br gamma group, which has 6 names for 4 wavelengths. *)
Theorem X5_names_and_wavelengths
  (disperser mode : string) (extend : bool) (l : list line_spec) :
  get_spectra_slice_specs disperser mode extend = Ok l ->
  (base_library disperser <> Some G235_line_library ->
   Forall (fun g => length (line_names g) = length (line_wavlengths g)) l)
  /\ (base_library disperser = Some G235_line_library ->
      In G235_Br_gamma l
      /\ length (line_names G235_Br_gamma) = 6%nat
      /\ length (line_wavlengths G235_Br_gamma) = 4%nat).
Proof.
  unfold base_library, get_spectra_slice_specs.
  destruct (str_in "G140" (upper disperser));
    [| destruct (str_in "G235" (upper disperser));
       [| destruct (str_in "G395" (upper disperser)); [| discriminate]]];
    destruct (String.eqb mode "FS");
    try destruct (String.eqb mode "MSA");
    destruct extend;
    intros H; cbn in H; inversion H; subst l; clear H;
    (split; intros Hb;
     [first [exfalso; apply Hb; reflexivity | repeat constructor]
     | first [vm_compute in Hb; discriminate Hb
             | split; [cbn; tauto | split; reflexivity]]]).
Qed.

Lemma X5_witness :
  get_spectra_slice_specs "g235m" "FS" false
  = Ok [G235_Br_zeta; G235_Pa_alpha; G235_He_I; G235_Br_gamma; G235_Br_beta]
  /\ In G235_Br_gamma
       [G235_Br_zeta; G235_Pa_alpha; G235_He_I; G235_Br_gamma; G235_Br_beta]
  /\ length (line_names G235_Br_gamma) = 6%nat
  /\ length (line_wavlengths G235_Br_gamma) = 4%nat.
Proof.
  split; [reflexivity |].
  apply (X5_names_and_wavelengths "g235m" "FS" false); reflexivity.
Defined.

(** X21: in the two recognised modes every line sits inside its window: for
    mode FS or MSA, whatever the disperser and [extend], each rest
    wavelength of each returned group lies strictly between the group's
    [min_lambda] and [max_lambda].  (The G395 group Pf gamma, whose first
    line lies below its window, is removed in both modes.) *)
Theorem X21_lines_inside_windows
  (disperser mode : string) (extend : bool) (l : list line_spec) :
  mode = "FS" \/ mode = "MSA" ->
  get_spectra_slice_specs disperser mode extend = Ok l ->
  Forall
    (fun g =>
       Forall (fun wl => (min_lambda g < wl)%Q /\ (wl < max_lambda g)%Q)
         (line_wavlengths g))
    l.
Proof.
  unfold get_spectra_slice_specs.
  intros [-> | ->];
    destruct (str_in "G140" (upper disperser));
    [| destruct (str_in "G235" (upper disperser));
       [| destruct (str_in "G395" (upper disperser)); [| discriminate]]
     | | destruct (str_in "G235" (upper disperser));
         [| destruct (str_in "G395" (upper disperser)); [| discriminate]]];
    destruct extend;
    intros H; vm_compute in H; inversion H; subst l; clear H;
    repeat constructor.
Qed.

Lemma X21_witness :
  ("MSA" = "FS" \/ "MSA" = "MSA")
  /\ get_spectra_slice_specs "G395M" "MSA" false
     = Ok [G395_Pf_eta; G395_He_I; G395_Hu_zeta]
  /\ Forall
       (fun g =>
          Forall (fun wl => (min_lambda g < wl)%Q /\ (wl < max_lambda g)%Q)
            (line_wavlengths g))
       [G395_Pf_eta; G395_He_I; G395_Hu_zeta].
Proof.
  assert (Hm : "MSA" = "FS" \/ "MSA" = "MSA") by now right.
  split; [exact Hm |]. split; [reflexivity |].
  exact (X21_lines_inside_windows "G395M" "MSA" false _ Hm eq_refl).
Defined.

(** The exception: with any other mode the G395 branch returns Pf gamma,
    whose first line, 37328.38..., lies below the window's lower bound
    37350. *)
Example g395_Pf_gamma_line_below_window :
  In G395_Pf_gamma G395_line_library
  /\ (hd 0 (line_wavlengths G395_Pf_gamma) < min_lambda G395_Pf_gamma)%Q.
Proof. split; [right; now left | reflexivity]. Qed.

End SpecSliceExtra.

(** * Further properties of the fitting engine *)

Module UtilExtra.
Import Util.

Local Open Scope R_scope.

(** ** Outcomes of the model dispatch *)

Section Dispatch.
Context {N : Numerics}.

Lemma getitem_1_short (x : vector) :
  (length x < 2)%nat -> getitem x 1 = Raise IndexError.
Proof. destruct x as [| x0 [| x1 x]]; simpl; intro H; [easy | easy | lia]. Qed.

Lemma get_spectra_model_unknown_type
  (x : vector) (mu fwhm amp c_amp c_slope : R) (line_type : string)
  (voigt_gamma : R) :
  ~ known_line_type line_type ->
  get_spectra_model x mu fwhm amp c_amp c_slope line_type voigt_gamma
  = Raise (ValueError ("Unknown line type: " ++ line_type)%string).
Proof.
  intro Hk. unfold get_spectra_model, known_line_type in *.
  destruct (String.eqb_spec line_type "gaussian") as [E | _]; [tauto |].
  destruct (String.eqb_spec line_type "voigt") as [E | _]; [tauto |].
  destruct (String.eqb_spec line_type "lorentzian") as [E | _]; [tauto |].
  reflexivity.
Qed.

Lemma get_spectra_model_short_grid
  (x : vector) (mu fwhm amp c_amp c_slope : R) (line_type : string)
  (voigt_gamma : R) :
  known_line_type line_type -> (length x < 2)%nat ->
  get_spectra_model x mu fwhm amp c_amp c_slope line_type voigt_gamma
  = Raise IndexError.
Proof.
  intros Hk Hx. pose proof (getitem_1_short x Hx) as H1.
  unfold get_spectra_model.
  destruct Hk as [-> | [-> | ->]]; cbn [String.eqb Ascii.eqb Bool.eqb];
    cbv iota;
    unfold get_pixel_integrated_gaussian, get_pixel_integrated_voigt,
      get_pixel_integrated_lorentzian;
    now rewrite H1.
Qed.

(** X6: [get_spectra_model] has three outcomes.  An unknown line type raises
    [ValueError] whatever the grid; a known line type on a grid of fewer than
    two pixels raises [IndexError], because the pixel width is read off the
    first two; otherwise a model with one value per pixel is returned. *)
Theorem X6_get_spectra_model_outcome
  (x : vector) (mu fwhm amp c_amp c_slope : R) (line_type : string)
  (voigt_gamma : R) :
  (~ known_line_type line_type ->
   get_spectra_model x mu fwhm amp c_amp c_slope line_type voigt_gamma
   = Raise (ValueError ("Unknown line type: " ++ line_type)%string))
  /\ (known_line_type line_type -> (length x < 2)%nat ->
      get_spectra_model x mu fwhm amp c_amp c_slope line_type voigt_gamma
      = Raise IndexError)
  /\ (known_line_type line_type -> (2 <= length x)%nat ->
      exists m,
        get_spectra_model x mu fwhm amp c_amp c_slope line_type voigt_gamma
        = Ok m
        /\ length m = length x).
Proof.
  split; [| split].
  - apply get_spectra_model_unknown_type.
  - apply get_spectra_model_short_grid.
  - intros Hk Hx. now apply UtilProps.get_spectra_model_returns.
Qed.

End Dispatch.

Lemma X6_witness :
  (~ known_line_type "boxcar"
   /\ known_line_type "voigt" /\ (length [6550%R] < 2)%nat
   /\ known_line_type "lorentzian" /\ (2 <= length example_wavelengths)%nat)
  /\ @get_spectra_model example_numerics example_wavelengths 6562.8 3 1 0 0
       "boxcar" 1
     = Raise (ValueError "Unknown line type: boxcar")
  /\ @get_spectra_model example_numerics [6550] 6562.8 3 1 0 0 "voigt" 1
     = Raise IndexError
  /\ exists m,
       @get_spectra_model example_numerics example_wavelengths 6562.8 3 1 0
         0 "lorentzian" 1
       = Ok m
       /\ length m = length example_wavelengths.
Proof.
  assert (Hb : ~ known_line_type "boxcar")
    by (intros [H | [H | H]]; discriminate H).
  assert (Hv : known_line_type "voigt") by (right; now left).
  assert (Hl : known_line_type "lorentzian") by (right; now right).
  split; [repeat split; auto; simpl; lia |].
  split; [| split].
  - exact (proj1 (@X6_get_spectra_model_outcome example_numerics
                    example_wavelengths 6562.8 3 1 0 0 "boxcar" 1) Hb).
  - apply (proj1 (proj2 (@X6_get_spectra_model_outcome example_numerics
                           [6550] 6562.8 3 1 0 0 "voigt" 1)) Hv).
    simpl; lia.
  - apply (proj2 (proj2 (@X6_get_spectra_model_outcome example_numerics
                           example_wavelengths 6562.8 3 1 0 0 "lorentzian"
                           1)) Hl).
    simpl; lia.
Defined.

(** ** Definite integrals and pixel integration *)

Lemma np_sum_app (u v : vector) : np_sum (u ++ v) = np_sum u + np_sum v.
Proof.
  unfold np_sum. induction u as [| a u IH]; simpl; [ring |].
  rewrite IH. ring.
Qed.

Lemma grid_S (x0 d : R) (n : nat) :
  grid x0 d (S n) = x0 :: grid (x0 + d) d n.
Proof.
  unfold grid. cbn [seq map]. f_equal; [simpl; ring |].
  rewrite <- seq_shift, map_map. apply map_ext. intro i.
  rewrite S_INR. ring.
Qed.

Lemma grid_length (x0 d : R) (n : nat) : length (grid x0 d n) = n.
Proof. unfold grid. now rewrite length_map, length_seq. Qed.

(** Pixel integrals of an additive integral telescope along a uniform
    grid. *)
Lemma pixel_integrals_telescope (I : R -> R -> R) (d : R) :
  (forall a b c, I a b + I b c = I a c) ->
  forall (n : nat) (x0 : R),
    np_sum (map (fun xi => I (xi - d / 2) (xi + d / 2)) (grid x0 d (S n)))
    = I (x0 - d / 2) (x0 + INR n * d + d / 2).
Proof.
  intros Hadd. induction n as [| n IH]; intro x0.
  - unfold grid, np_sum. simpl. rewrite Rplus_0_r. f_equal; lra.
  - rewrite grid_S. cbn [map]. change (np_sum (?a :: ?l)) with (a + np_sum l).
    rewrite IH. replace (x0 + d - d / 2) with (x0 + d / 2) by lra.
    rewrite Hadd. f_equal. rewrite S_INR. lra.
Qed.

Section Integrals.
Context {N : Numerics}.

Lemma integrate_gaussian_additive (a b c mu fwhm : R) :
  integrate_gaussian a b mu fwhm + integrate_gaussian b c mu fwhm
  = integrate_gaussian a c mu fwhm.
Proof. unfold integrate_gaussian. cbv zeta. ring. Qed.

Lemma integrate_lorentzian_additive (a b c mu fwhm : R) :
  integrate_lorentzian a b mu fwhm + integrate_lorentzian b c mu fwhm
  = integrate_lorentzian a c mu fwhm.
Proof. unfold integrate_lorentzian. cbv zeta. unfold Rdiv. ring. Qed.

Lemma grid_first_two (x0 d : R) (n : nat) :
  getitem (grid x0 d (S (S n))) 1 = Ok (x0 + d)
  /\ getitem (grid x0 d (S (S n))) 0 = Ok x0.
Proof. rewrite !grid_S. split; reflexivity. Qed.

(** X7: on a uniform grid the unit-amplitude pixel-integrated Gaussian and
    Lorentzian models conserve flux: the pixel values add up to the definite
    integral of the profile from the lower edge of the first pixel to the
    upper edge of the last. *)
Theorem X7_pixel_integration_conserves_flux
  (x0 d mu fwhm : R) (n : nat) :
  (2 <= n)%nat ->
  (exists m,
     get_pixel_integrated_gaussian (grid x0 d n) mu fwhm 1 0 0 = Ok m
     /\ np_sum m
        = integrate_gaussian (x0 - d / 2) (x0 + INR (n - 1) * d + d / 2)
            mu fwhm)
  /\ (exists m,
        get_pixel_integrated_lorentzian (grid x0 d n) mu fwhm 1 0 0 = Ok m
        /\ np_sum m
           = integrate_lorentzian (x0 - d / 2)
               (x0 + INR (n - 1) * d + d / 2) mu fwhm).
Proof.
  intro Hn. destruct n as [| [| n]]; try lia.
  destruct (grid_first_two x0 d n) as [H1 H0].
  replace (S (S n) - 1)%nat with (S n) by lia.
  split.
  - unfold get_pixel_integrated_gaussian. rewrite H1, H0. cbn [rbind].
    eexists. split; [reflexivity |].
    rewrite <- (pixel_integrals_telescope
                  (fun a b => integrate_gaussian a b mu fwhm) d
                  (fun a b c => integrate_gaussian_additive a b c mu fwhm)).
    f_equal. apply map_ext. intro xi.
    replace ((x0 + d - x0) / 2.0) with (d / 2) by lra. ring.
  - unfold get_pixel_integrated_lorentzian. rewrite H1, H0. cbn [rbind].
    eexists. split; [reflexivity |].
    rewrite <- (pixel_integrals_telescope
                  (fun a b => integrate_lorentzian a b mu fwhm) d
                  (fun a b c => integrate_lorentzian_additive a b c mu fwhm)).
    f_equal. apply map_ext. intro xi.
    replace ((x0 + d - x0) / 2.0) with (d / 2) by lra. ring.
Qed.

End Integrals.

Lemma X7_witness :
  (2 <= 3)%nat
  /\ (exists m,
        @get_pixel_integrated_gaussian example_numerics (grid 6550 10 3)
          6562.8 3 1 0 0 = Ok m
        /\ np_sum m
           = @integrate_gaussian example_numerics (6550 - 10 / 2)
               (6550 + INR (3 - 1) * 10 + 10 / 2) 6562.8 3)
  /\ (exists m,
        get_pixel_integrated_lorentzian (grid 6550 10 3) 6562.8 3 1 0 0
        = Ok m
        /\ np_sum m
           = integrate_lorentzian (6550 - 10 / 2)
               (6550 + INR (3 - 1) * 10 + 10 / 2) 6562.8 3).
Proof.
  split; [lia |].
  apply (@X7_pixel_integration_conserves_flux example_numerics 6550 10
           6562.8 3 3). lia.
Defined.

(** X8: for [fwhm > 0] the Lorentzian definite integral lies between -1
    and 1 for all bounds, it is non-negative when [a <= b], and the window
    of one full width around the centre holds exactly half of the area. *)
Theorem X8_integrate_lorentzian_range (a b mu fwhm : R) :
  0 < fwhm ->
  -1 <= integrate_lorentzian a b mu fwhm <= 1
  /\ (a <= b -> 0 <= integrate_lorentzian a b mu fwhm)
  /\ integrate_lorentzian (mu - fwhm / 2) (mu + fwhm / 2) mu fwhm = 1 / 2.
Proof.
  intro Hf. pose proof PI_RGT_0 as Hpi.
  unfold integrate_lorentzian. cbv zeta.
  split; [| split].
  - pose proof (atan_bound ((b - mu) / (fwhm / 2.0))) as Hb.
    pose proof (atan_bound ((a - mu) / (fwhm / 2.0))) as Ha.
    set (u := atan _) in *. set (v := atan _) in *.
    split.
    + apply (Rmult_le_reg_r PI); [exact Hpi |].
      unfold Rdiv. rewrite Rmult_assoc, Rinv_l by lra. lra.
    + apply (Rmult_le_reg_r PI); [exact Hpi |].
      unfold Rdiv. rewrite Rmult_assoc, Rinv_l by lra. lra.
  - intros [Hab | ->].
    + assert (Hlt : (a - mu) / (fwhm / 2.0) < (b - mu) / (fwhm / 2.0)).
      { unfold Rdiv. apply Rmult_lt_compat_r; [| lra].
        apply Rinv_0_lt_compat. lra. }
      apply atan_increasing in Hlt.
      apply Rmult_le_pos; [lra |]. left. now apply Rinv_0_lt_compat.
    + unfold Rdiv. rewrite Rminus_diag, Rmult_0_l. lra.
  - replace (fwhm / 2.0) with (fwhm / 2) by lra.
    replace ((mu + fwhm / 2 - mu) / (fwhm / 2)) with 1 by (field; lra).
    replace ((mu - fwhm / 2 - mu) / (fwhm / 2)) with (Ropp 1)
      by (field; lra).
    rewrite atan_opp, atan_1. field. lra.
Qed.

Lemma X8_witness :
  0 < 3 /\ 6560 <= 6565
  /\ -1 <= integrate_lorentzian 6560 6565 6562.8 3 <= 1
  /\ 0 <= integrate_lorentzian 6560 6565 6562.8 3
  /\ integrate_lorentzian (6562.8 - 3 / 2) (6562.8 + 3 / 2) 6562.8 3 = 1 / 2.
Proof.
  assert (H3 : 0 < 3) by lra. assert (Hab : 6560 <= 6565) by lra.
  split; [exact H3 |]. split; [exact Hab |].
  destruct (X8_integrate_lorentzian_range 6560 6565 6562.8 3 H3)
    as [Hr [Hp Hh]].
  split; [exact Hr |]. split; [exact (Hp Hab) | exact Hh].
Defined.

(** ** Peak profiles *)

(** X9: [fwhm] is the full width at half maximum of [get_lorentzian]: half
    a width away from the centre, on either side, the profile is half of
    what it is at the centre. *)
Theorem X9_lorentzian_half_maximum
  (x : vector) (mu fwhm : R) (i j : nat) :
  0 < fwhm ->
  nth_error x i = Some mu ->
  nth_error x j = Some (mu + fwhm / 2)
  \/ nth_error x j = Some (mu - fwhm / 2) ->
  exists peak,
    nth_error (get_lorentzian x mu fwhm 1 0 0) i = Some peak
    /\ nth_error (get_lorentzian x mu fwhm 1 0 0) j = Some (peak / 2).
Proof.
  intros Hf Hi Hj. pose proof PI_neq0 as Hpi.
  exists (2 / (PI * fwhm)). split.
  - now apply UtilProps.get_lorentzian_at_mu.
  - unfold get_lorentzian. cbv zeta.
    destruct Hj as [Hj | Hj];
      rewrite (UtilProps.nth_error_map_some _ _ _ _ Hj); f_equal;
      field; split; try lra.
    + replace (mu + fwhm / 2 - mu) with (fwhm / 2) by lra. nra.
    + replace (mu - fwhm / 2 - mu) with (- (fwhm / 2)) by lra. nra.
Qed.

Lemma X9_witness :
  (0 < 2
   /\ nth_error [9; 10; 11] 1 = Some 10
   /\ (nth_error [9; 10; 11] 2 = Some (10 + 2 / 2)
       \/ nth_error [9; 10; 11] 2 = Some (10 - 2 / 2)))
  /\ exists peak,
       nth_error (get_lorentzian [9; 10; 11] 10 2 1 0 0) 1 = Some peak
       /\ nth_error (get_lorentzian [9; 10; 11] 10 2 1 0 0) 2
          = Some (peak / 2).
Proof.
  assert (H2 : 0 < 2) by lra.
  assert (Hj : nth_error [9; 10; 11] 2 = Some (10 + 2 / 2))
    by (simpl; f_equal; lra).
  split; [split; [exact H2 | split; [reflexivity | left; exact Hj]] |].
  exact (X9_lorentzian_half_maximum [9; 10; 11] 10 2 1 2 H2 eq_refl
           (or_introl Hj)).
Defined.

(** X10: with unit amplitude and no continuum the centre value is the
    maximum of the profile and the profile is never negative: every value
    of [get_gaussian] lies in [0, 1] and every value of [get_lorentzian] in
    [0, 2 / (pi * fwhm)]. *)
Theorem X10_profiles_bounded_by_peak (x : vector) (mu fwhm : R) :
  0 < fwhm ->
  Forall (fun v => 0 <= v <= 1) (get_gaussian x mu fwhm 1 0 0)
  /\ Forall (fun v => 0 <= v <= 2 / (PI * fwhm))
       (get_lorentzian x mu fwhm 1 0 0).
Proof.
  intro Hf. pose proof PI_RGT_0 as Hpi.
  split; apply Forall_forall; intros v Hv; apply in_map_iff in Hv;
    destruct Hv as [xi [<- _]].
  - set (t := - (xi - mu) ^ 2 / (2 * (fwhm / 2.355) ^ 2)).
    assert (Ht : t <= 0).
    { unfold t. assert (0 < 2 * (fwhm / 2.355) ^ 2) by nra.
      assert (Hq : 0 <= (xi - mu) ^ 2 / (2 * (fwhm / 2.355) ^ 2)).
      { apply Rmult_le_pos; [apply pow2_ge_0 |].
        left. now apply Rinv_0_lt_compat. }
      unfold Rdiv in *. lra. }
    pose proof (exp_pos t) as Hp.
    assert (He : exp t <= 1).
    { destruct Ht as [Ht | ->]; [| rewrite exp_0; lra].
      left. rewrite <- exp_0. now apply exp_increasing. }
    lra.
  - set (g := fwhm / 2).
    assert (Hg : 0 < g) by (unfold g; lra).
    pose proof (pow2_ge_0 (xi - mu)) as Hsq.
    replace (2 / (PI * fwhm)) with (/ g / PI) by (unfold g; field; lra).
    replace (1 * g / ((xi - mu) ^ 2 + g ^ 2) / PI + 0 + (xi - np_mean x) * 0)
      with (g / ((xi - mu) ^ 2 + g ^ 2) / PI) by (unfold Rdiv; ring).
    replace (g ^ 2) with (g * g) by ring.
    set (q := (xi - mu) ^ 2) in *.
    assert (Hgg : 0 < g * g) by now apply Rmult_lt_0_compat.
    assert (Hd : 0 < q + g * g) by lra.
    assert (Hq : 0 < g / (q + g * g) <= / g).
    { split.
      - apply Rmult_lt_0_compat; [exact Hg | now apply Rinv_0_lt_compat].
      - assert (E : / g - g / (q + g * g) = q / (g * (q + g * g)))
          by (field; lra).
        assert (0 <= q / (g * (q + g * g))).
        { apply Rmult_le_pos; [exact Hsq |]. left.
          apply Rinv_0_lt_compat. now apply Rmult_lt_0_compat. }
        lra. }
    split.
    + left. apply Rmult_lt_0_compat; [lra | now apply Rinv_0_lt_compat].
    + apply Rmult_le_compat_r; [left; now apply Rinv_0_lt_compat | lra].
Qed.

Lemma X10_witness :
  0 < 3
  /\ Forall (fun v => 0 <= v <= 1)
       (get_gaussian example_wavelengths 6562.8 3 1 0 0)
  /\ Forall (fun v => 0 <= v <= 2 / (PI * 3))
       (get_lorentzian example_wavelengths 6562.8 3 1 0 0).
Proof.
  assert (H3 : 0 < 3) by lra.
  split; [exact H3 |].
  exact (X10_profiles_bounded_by_peak example_wavelengths 6562.8 3 H3).
Defined.

(** ** Linearity of the model in its amplitudes *)

Lemma map2_map_diag {A B C : Type} (f : B -> A -> C) (g : A -> B)
  (x : list A) :
  map2 f (map g x) x = map (fun xi => f (g xi) xi) x.
Proof. induction x as [| a x IH]; simpl; [reflexivity | now rewrite IH]. Qed.

Lemma map2_map2_diag {A B C D : Type} (f : C -> B -> D) (g : A -> B -> C)
  (u : list A) (x : list B) :
  map2 f (map2 g u x) x = map2 (fun a xi => f (g a xi) xi) u x.
Proof.
  revert x. induction u as [| a u IH]; intros [| b x]; simpl; auto.
  now rewrite IH.
Qed.

Lemma map2_ext {A B C : Type} (f g : A -> B -> C) (u : list A)
  (x : list B) :
  (forall a b, f a b = g a b) -> map2 f u x = map2 g u x.
Proof.
  intro H. revert x. induction u as [| a u IH]; intros [| b x]; simpl; auto.
  now rewrite H, IH.
Qed.

(** The deviations from the mean add up to zero. *)
Lemma deviations_sum_zero (x : vector) (m : R) :
  np_sum (map (fun xi => xi - m) x) = np_sum x - INR (length x) * m.
Proof.
  unfold np_sum. induction x as [| a x IH]; [simpl; ring |].
  cbn [map fold_right]. rewrite IH.
  change (length (a :: x)) with (S (length x)). rewrite S_INR. ring.
Qed.

Lemma np_sum_affine (amp c s m : R) (unit x : vector) :
  length unit = length x ->
  np_sum (map2 (fun u xi => amp * u + c + (xi - m) * s) unit x)
  = amp * np_sum unit + INR (length x) * c
    + s * np_sum (map (fun xi => xi - m) x).
Proof.
  unfold np_sum. revert x.
  induction unit as [| u unit IH]; intros [| xi x] H; try discriminate.
  - simpl. ring.
  - cbn [map2 map fold_right]. rewrite IH by (now inversion H).
    change (length (xi :: x)) with (S (length x)). rewrite S_INR. ring.
Qed.

Section Linearity.
Context {N : Numerics}.

(** X11: the model is affine in its three amplitudes, which is what lets a
    linear solver fit them: for a known line type on a grid of at least two
    pixels, the model for [amp], [continuum_amp] and [continuum_slope] is
    pixel by pixel [amp] times the unit model plus the constant plus the
    slope times the offset from the mean wavelength; the slope term adds up
    to zero, so the summed model is [amp] times the summed unit model plus
    the constant times the number of pixels. *)
Theorem X11_model_affine_in_amplitudes
  (x : vector) (mu fwhm amp c_amp c_slope : R) (line_type : string)
  (voigt_gamma : R) :
  known_line_type line_type -> (2 <= length x)%nat ->
  exists unit m,
    get_spectra_model x mu fwhm 1 0 0 line_type voigt_gamma = Ok unit
    /\ get_spectra_model x mu fwhm amp c_amp c_slope line_type voigt_gamma
       = Ok m
    /\ m = map2 (fun u xi => amp * u + c_amp + (xi - np_mean x) * c_slope)
             unit x
    /\ np_sum m = amp * np_sum unit + INR (length x) * c_amp.
Proof.
  intros Hk Hx.
  destruct (UtilProps.getitem_0_1 x Hx) as [x0 [x1 [H0 H1]]].
  assert (Hne : INR (length x) <> 0).
  { apply not_0_INR. lia. }
  assert (Hdev : np_sum (map (fun xi => xi - np_mean x) x) = 0).
  { rewrite deviations_sum_zero. unfold np_mean. field. exact Hne. }
  assert (Hsum : forall unit, length unit = length x ->
            np_sum (map2 (fun u xi => amp * u + c_amp
                                      + (xi - np_mean x) * c_slope) unit x)
            = amp * np_sum unit + INR (length x) * c_amp).
  { intros unit Hl. rewrite np_sum_affine by exact Hl. rewrite Hdev. ring. }
  unfold get_spectra_model.
  destruct Hk as [-> | [-> | ->]]; cbn [String.eqb Ascii.eqb Bool.eqb];
    cbv iota.
  - unfold get_pixel_integrated_gaussian. rewrite H1, H0. cbn [rbind].
    do 2 eexists. split; [reflexivity |]. split; [reflexivity |].
    match goal with |- ?m = ?rhs /\ _ => assert (Hm : m = rhs) end.
    { rewrite map2_map_diag. apply map_ext. intro xi. ring. }
    split; [exact Hm | rewrite Hm; apply Hsum, length_map].
  - unfold get_pixel_integrated_voigt. rewrite H1, H0. cbn [rbind].
    do 2 eexists. split; [reflexivity |]. split; [reflexivity |].
    match goal with |- ?m = ?rhs /\ _ => assert (Hm : m = rhs) end.
    { rewrite map2_map2_diag. apply map2_ext. intros iv xi. ring. }
    split; [exact Hm | rewrite Hm; apply Hsum].
    rewrite UtilProps.map2_length; rewrite UtilProps.integrate_voigt_length;
      rewrite ?length_map; reflexivity.
  - unfold get_pixel_integrated_lorentzian. rewrite H1, H0. cbn [rbind].
    do 2 eexists. split; [reflexivity |]. split; [reflexivity |].
    match goal with |- ?m = ?rhs /\ _ => assert (Hm : m = rhs) end.
    { rewrite map2_map_diag. apply map_ext. intro xi. ring. }
    split; [exact Hm | rewrite Hm; apply Hsum, length_map].
Qed.

End Linearity.

Lemma X11_witness :
  (known_line_type "voigt" /\ (2 <= length example_wavelengths)%nat)
  /\ exists unit m,
    @get_spectra_model example_numerics example_wavelengths 6562.8 3 1 0 0
      "voigt" 1 = Ok unit
    /\ @get_spectra_model example_numerics example_wavelengths 6562.8 3 2.5
         0.1 0.01 "voigt" 1 = Ok m
    /\ m = map2 (fun u xi =>
                   2.5 * u + 0.1 + (xi - np_mean example_wavelengths) * 0.01)
             unit example_wavelengths
    /\ np_sum m = 2.5 * np_sum unit + INR (length example_wavelengths) * 0.1.
Proof.
  assert (Hv : known_line_type "voigt") by (right; now left).
  assert (Hx : (2 <= length example_wavelengths)%nat) by (simpl; lia).
  split; [split; assumption |].
  exact (@X11_model_affine_in_amplitudes example_numerics
           example_wavelengths 6562.8 3 2.5 0.1 0.01 "voigt" 1 Hv Hx).
Defined.

(** ** Weighted solver *)

Lemma dot_scaled_row (row c : vector) (k : R) :
  dot (map (fun a => a / k) row) c = dot row c / k.
Proof.
  unfold dot, np_sum. revert c.
  induction row as [| a row IH]; intros [| v c]; simpl;
    try (unfold Rdiv; ring).
  rewrite IH. unfold Rdiv. ring.
Qed.

Lemma weighted_residuals (c : vector) (noise : vector) :
  Forall (fun n => 0 < n) noise ->
  forall (A : matrix) (b : vector),
    length A = length noise -> length b = length noise ->
    sum_of_squares
      (map2 Rminus (map2 Rdiv b noise)
         (map (fun row => dot row c)
            (map2 (fun row n => map (fun a => a / n) row) A noise)))
    = np_sum
        (map2 (fun r n => (r / n) ^ 2)
           (map2 Rminus b (map (fun row => dot row c) A)) noise).
Proof.
  unfold sum_of_squares, np_sum.
  induction 1 as [| n noise Hn Hpos IH]; intros [| row A] [| v b] HA Hb;
    try discriminate; [reflexivity |].
  cbn [map2 map fold_right]. rewrite IH by (simpl in *; congruence).
  rewrite dot_scaled_row. f_equal. field. lra.
Qed.

Lemma weigh_rows_shape (A : matrix) (noise : vector) (k : nat) :
  Forall (fun row => length row = k) A ->
  Forall (fun row => length row = k) (weigh_rows A noise).
Proof.
  unfold weigh_rows. intro H. revert noise.
  induction H as [| row A Hr H IH]; intros [| n noise]; simpl;
    constructor; [now rewrite length_map | apply IH].
Qed.

(** X12: weighting is inverse-variance weighting.  For parallel arrays and
    positive noise, the sum of squared residuals of the weighted system at
    any coefficient vector is the chi-square of the unweighted one: the sum
    over pixels of [((b_i - (A c)_i) / noise_i) ^ 2]. *)
Theorem X12_weighted_residual_is_chi_square
  (A : matrix) (b noise c : vector) :
  length A = length noise -> length b = length noise ->
  Forall (fun n => 0 < n) noise ->
  Forall (fun row => length row = length c) A ->
  exists A_weighted b_weighted fitted fitted_weighted,
    weighted_system A b noise = Ok (A_weighted, b_weighted)
    /\ matvec A c = Ok fitted
    /\ matvec A_weighted c = Ok fitted_weighted
    /\ sum_of_squares (map2 Rminus b_weighted fitted_weighted)
       = np_sum (map2 (fun r n => (r / n) ^ 2) (map2 Rminus b fitted) noise).
Proof.
  intros HA Hb Hpos Hrows.
  destruct (UtilProps.weigh_by_inverse_noise A b noise Hpos) as [EA Eb].
  exists (weigh_rows A noise), (weigh b noise),
    (map (fun row => dot row c) A),
    (map (fun row => dot row c) (weigh_rows A noise)).
  split; [now apply UtilProps.weighted_system_parallel |].
  split; [now apply UtilProps.matvec_returns |].
  split; [apply UtilProps.matvec_returns; now apply weigh_rows_shape |].
  rewrite EA, Eb. now apply weighted_residuals.
Qed.

Lemma X12_witness :
  (length [[1; 0]; [1; 1]; [1; 2]] = length example_noise
   /\ length example_spectra = length example_noise
   /\ Forall (fun n => 0 < n) example_noise
   /\ Forall (fun row => length row = length [2; 0.5])
        [[1; 0]; [1; 1]; [1; 2]])
  /\ exists A_weighted b_weighted fitted fitted_weighted,
    weighted_system [[1; 0]; [1; 1]; [1; 2]] example_spectra example_noise
    = Ok (A_weighted, b_weighted)
    /\ matvec [[1; 0]; [1; 1]; [1; 2]] [2; 0.5] = Ok fitted
    /\ matvec A_weighted [2; 0.5] = Ok fitted_weighted
    /\ sum_of_squares (map2 Rminus b_weighted fitted_weighted)
       = np_sum (map2 (fun r n => (r / n) ^ 2)
                   (map2 Rminus example_spectra fitted) example_noise).
Proof.
  assert (Hrows : Forall (fun row => length row = length [2; 0.5])
                    [[1; 0]; [1; 1]; [1; 2]])
    by (repeat constructor).
  split.
  - split; [reflexivity |]. split; [reflexivity |].
    split; [exact UtilProps.example_noise_positive | exact Hrows].
  - exact (X12_weighted_residual_is_chi_square [[1; 0]; [1; 1]; [1; 2]]
             example_spectra example_noise [2; 0.5] eq_refl eq_refl
             UtilProps.example_noise_positive Hrows).
Defined.

Section Fit.
Context {N : Numerics}.

Lemma combine_nonempty {A B : Type} (xs : list A) (ys : list B) :
  xs <> [] -> ys <> [] -> exists p rest, combine xs ys = p :: rest.
Proof.
  destruct xs as [| x xs]; [easy |]. destruct ys as [| y ys]; [easy |].
  intros _ _. now exists (x, y), (combine xs ys).
Qed.

Lemma expand_fwhms_nonempty (fwhms : fwhms_arg) (lines : vector) :
  float_or_sequence fwhms -> fwhms <> FwhmSeq [] -> lines <> [] ->
  widths_of fwhms lines <> [].
Proof.
  destruct fwhms as [fwhm | n | fs]; simpl.
  - intros _ _ Hl. destruct lines; [easy | discriminate].
  - intros [].
  - intros _ Hf _ ->. now apply Hf.
Qed.

(** X13: bad input stops [best_linear_fit_model] before any solver is
    called.  For widths given as a float or a sequence: with no line, or an
    empty sequence of widths, the loop runs no iteration and the first use
    of [line_model] raises [UnboundLocalError]; otherwise an unknown line
    type raises [ValueError], and a known one on a grid of fewer than two
    pixels raises [IndexError]; and on a grid of at least two pixels, noise
    whose length is neither the number of pixels nor one raises [ValueError]
    when the weights are applied.  A width given as an integer is not
    expanded and [zip] raises [TypeError] on it, whatever the lines. *)
Theorem X13_bad_input_calls_no_solver
  (velocity : R) (fwhms : fwhms_arg) (wavelengths spectra noise lines : vector)
  (line_type : string) (voigt_gamma : R) (get_amp : bool) :
  let out :=
    run_fit (best_linear_fit_model velocity fwhms wavelengths spectra noise
               lines line_type voigt_gamma get_amp) in
  (float_or_sequence fwhms ->
   (lines = [] \/ fwhms = FwhmSeq [] ->
    out = (Raise UnboundLocalError, []))
   /\ (lines <> [] -> fwhms <> FwhmSeq [] ->
       (~ known_line_type line_type ->
        out = (Raise (ValueError ("Unknown line type: " ++ line_type)%string),
               []))
       /\ (known_line_type line_type -> (length wavelengths < 2)%nat ->
           out = (Raise IndexError, []))
       /\ (known_line_type line_type -> (2 <= length wavelengths)%nat ->
           fwhms_match fwhms lines ->
           length noise <> length wavelengths -> length noise <> 1%nat ->
           exists msg, out = (Raise (ValueError msg), []))))
  /\ (forall n : Z, fwhms = FwhmInt n -> out = (Raise TypeError, [])).
Proof.
  cbv zeta. unfold run_fit, best_linear_fit_model, fit_bind, fit_lift.
  split; [| intros n ->; reflexivity].
  intro Hfs. split.
  - intros H.
    assert (E : combine (widths_of fwhms lines) lines = []).
    { destruct H as [-> | ->]; [| reflexivity].
      now destruct (widths_of fwhms []). }
    unfold line_models. cbv zeta.
    rewrite (UtilProps.iter_expand_fwhms fwhms lines Hfs). cbn [rbind].
    rewrite E. reflexivity.
  - intros Hl Hf.
    destruct (combine_nonempty (widths_of fwhms lines) lines
                (expand_fwhms_nonempty fwhms lines Hfs Hf Hl) Hl)
      as [[fwhm line] [rest E]].
    split; [| split].
    + intro Hk. unfold line_models. cbv zeta.
      rewrite (UtilProps.iter_expand_fwhms fwhms lines Hfs). cbn [rbind].
      rewrite E. cbn [line_models_loop].
      rewrite (get_spectra_model_unknown_type wavelengths
                 (line * (1 + velocity / light_speed)) fwhm 1 0 0 line_type
                 voigt_gamma Hk).
      reflexivity.
    + intros Hk Hx. unfold line_models. cbv zeta.
      rewrite (UtilProps.iter_expand_fwhms fwhms lines Hfs). cbn [rbind].
      rewrite E. cbn [line_models_loop].
      rewrite (get_spectra_model_short_grid wavelengths
                 (line * (1 + velocity / light_speed)) fwhm 1 0 0 line_type
                 voigt_gamma Hk Hx).
      reflexivity.
    + intros Hk Hx Hm Hn Hn1.
      destruct (UtilProps.line_models_returns velocity fwhms wavelengths
                  lines line_type voigt_gamma Hl Hx Hm Hk)
        as [per_line [Em [Hlen F]]].
      rewrite Em.
      set (A := transpose _).
      assert (HA : length A = length wavelengths).
      { unfold A. rewrite UtilProps.transpose_length.
        destruct F as [| p m ps ms [_ L] F]; [apply repeat_length | exact L]. }
      unfold weighted_system, broadcast2. cbv zeta.
      rewrite !length_map, HA.
      destruct (Nat.eqb_spec (length wavelengths) (length noise)) as [E' | _];
        [now destruct Hn |].
      destruct A as [| r0 [| r1 A]]; simpl in HA; try lia.
      destruct noise as [| n0 [| n1 noise]]; simpl in Hn1; try lia;
        eexists; reflexivity.
Qed.

Lemma combine_firstn_both {A B : Type} (xs : list A) (ys : list B) :
  combine (firstn (length ys) xs) (firstn (length xs) ys) = combine xs ys.
Proof.
  revert ys. induction xs as [| x xs IH]; intros [| y ys]; simpl; auto.
  now rewrite IH.
Qed.

(** X14: a sequence of widths shorter than the list of lines silently drops
    the surplus lines, and a longer one its surplus widths: for a known line
    type on a grid of at least two pixels the builder returns one model per
    zipped pair, [min (number of widths) (number of lines)], plus the two
    trend vectors. *)
Theorem X14_widths_and_lines_are_zipped
  (velocity : R) (fwhms wavelengths lines : vector) (line_type : string)
  (voigt_gamma : R) :
  fwhms <> [] -> lines <> [] ->
  (2 <= length wavelengths)%nat -> known_line_type line_type ->
  exists models,
    line_models velocity (FwhmSeq fwhms) wavelengths lines line_type
      voigt_gamma = Ok models
    /\ length models = (Nat.min (length fwhms) (length lines) + 2)%nat
    /\ line_models velocity (FwhmSeq fwhms) wavelengths lines line_type
         voigt_gamma
       = line_models velocity
           (FwhmSeq (firstn (length lines) fwhms)) wavelengths
           (firstn (length fwhms) lines) line_type voigt_gamma.
Proof.
  intros Hf Hl Hx Hk.
  destruct (UtilProps.line_models_loop_returns velocity wavelengths
              line_type voigt_gamma (combine fwhms lines) Hx Hk)
    as [per_line [E F]].
  assert (Hlen : length per_line = Nat.min (length fwhms) (length lines)).
  { now rewrite <- (Forall2_length F), length_combine. }
  assert (Hne : per_line <> []).
  { intros ->. simpl in Hlen.
    destruct fwhms; [easy |]. destruct lines; [easy |]. discriminate Hlen. }
  assert (Hall : Forall (fun m => length m = length wavelengths) per_line).
  { clear -F. induction F as [| p m ps ms [_ L] F IH]; constructor; auto. }
  exists (per_line ++ [repeat 1 (length wavelengths);
                       arange (length wavelengths)]).
  split; [| split].
  - unfold line_models. cbv zeta. cbn [expand_fwhms iter_fwhms rbind].
    rewrite E.
    cbn [rbind]. now apply UtilProps.append_trend_returns.
  - rewrite length_app, Hlen. reflexivity.
  - unfold line_models. cbv zeta. cbn [expand_fwhms iter_fwhms rbind].
    now rewrite combine_firstn_both.
Qed.

End Fit.

Lemma X14_witness :
  ([3] <> [] /\ example_lines <> []
   /\ (2 <= length example_wavelengths)%nat /\ known_line_type "gaussian")
  /\ exists models,
    @line_models example_numerics 100 (FwhmSeq [3]) example_wavelengths
      example_lines "gaussian" 1 = Ok models
    /\ length models = (Nat.min (length [3]) (length example_lines) + 2)%nat
    /\ @line_models example_numerics 100 (FwhmSeq [3]) example_wavelengths
         example_lines "gaussian" 1
       = @line_models example_numerics 100
           (FwhmSeq (firstn (length example_lines) [3])) example_wavelengths
           (firstn (length [3]) example_lines) "gaussian" 1.
Proof.
  assert (H1 : [3] <> []) by discriminate.
  assert (H2 : example_lines <> []) by discriminate.
  assert (H3 : (2 <= length example_wavelengths)%nat) by (simpl; lia).
  assert (H4 : known_line_type "gaussian") by now left.
  split; [repeat split; assumption |].
  exact (@X14_widths_and_lines_are_zipped example_numerics 100 [3]
           example_wavelengths example_lines "gaussian" 1 H1 H2 H3 H4).
Defined.

Lemma X13_witness :
  (float_or_sequence (FwhmFloat 3)
   /\ (@nil R = [] \/ FwhmFloat 3 = FwhmSeq [])
   /\ example_lines <> [] /\ FwhmFloat 3 <> FwhmSeq []
   /\ ~ known_line_type "boxcar"
   /\ known_line_type "gaussian" /\ (length [6550%R] < 2)%nat
   /\ (2 <= length example_wavelengths)%nat
   /\ fwhms_match (FwhmFloat 3) example_lines
   /\ length [0.5; 0.5] <> length example_wavelengths
   /\ length [0.5; 0.5] <> 1%nat)
  /\ run_fit (@best_linear_fit_model example_numerics 100 (FwhmFloat 3)
                example_wavelengths example_spectra example_noise []
                "gaussian" 1 false)
     = (Raise UnboundLocalError, [])
  /\ run_fit (@best_linear_fit_model example_numerics 100 (FwhmFloat 3)
                example_wavelengths example_spectra example_noise
                example_lines "boxcar" 1 false)
     = (Raise (ValueError "Unknown line type: boxcar"), [])
  /\ run_fit (@best_linear_fit_model example_numerics 100 (FwhmFloat 3)
                [6550] [1] [0.5] example_lines "gaussian" 1 false)
     = (Raise IndexError, [])
  /\ (exists msg,
       run_fit (@best_linear_fit_model example_numerics 100 (FwhmFloat 3)
                  example_wavelengths example_spectra [0.5; 0.5]
                  example_lines "gaussian" 1 false)
       = (Raise (ValueError msg), []))
  /\ run_fit (@best_linear_fit_model example_numerics 100 (FwhmInt 3)
                example_wavelengths example_spectra example_noise
                example_lines "gaussian" 1 false)
     = (Raise TypeError, []).
Proof.
  assert (Hfs : float_or_sequence (FwhmFloat 3)) by exact I.
  assert (H0 : @nil R = [] \/ FwhmFloat 3 = FwhmSeq []) by now left.
  assert (H1 : example_lines <> []) by discriminate.
  assert (H2 : FwhmFloat 3 <> FwhmSeq []) by discriminate.
  assert (H3 : ~ known_line_type "boxcar")
    by (intros [H | [H | H]]; discriminate H).
  assert (H4 : known_line_type "gaussian") by now left.
  assert (H5 : (length [6550%R] < 2)%nat) by (simpl; lia).
  assert (H6 : (2 <= length example_wavelengths)%nat) by (simpl; lia).
  assert (H7 : length [0.5; 0.5] <> length example_wavelengths)
    by discriminate.
  assert (H8 : length [0.5; 0.5] <> 1%nat) by discriminate.
  split; [repeat split; assumption |].
  split; [| split; [| split; [| split]]].
  - exact (proj1 (proj1 (@X13_bad_input_calls_no_solver example_numerics 100
                           (FwhmFloat 3) example_wavelengths example_spectra
                           example_noise [] "gaussian" 1 false) Hfs) H0).
  - exact (proj1 (proj2 (proj1 (@X13_bad_input_calls_no_solver
                                  example_numerics 100 (FwhmFloat 3)
                                  example_wavelengths example_spectra
                                  example_noise example_lines "boxcar" 1
                                  false) Hfs) H1 H2) H3).
  - exact (proj1 (proj2 (proj2 (proj1 (@X13_bad_input_calls_no_solver
                                         example_numerics 100 (FwhmFloat 3)
                                         [6550] [1] [0.5] example_lines
                                         "gaussian" 1 false) Hfs)
                           H1 H2)) H4 H5).
  - exact (proj2 (proj2 (proj2 (proj1 (@X13_bad_input_calls_no_solver
                                         example_numerics 100 (FwhmFloat 3)
                                         example_wavelengths example_spectra
                                         [0.5; 0.5] example_lines "gaussian"
                                         1 false) Hfs)
                           H1 H2)) H4 H6 I H7 H8).
  - exact (proj2 (@X13_bad_input_calls_no_solver example_numerics 100
                    (FwhmInt 3) example_wavelengths example_spectra
                    example_noise example_lines "gaussian" 1 false)
             3%Z eq_refl).
Defined.

Section Shapes.
Context {N : Numerics}.

(** The outcome of a fit on well-formed input, by what the solvers
    answer, with the shapes of the design matrix. *)
Lemma fit_outcome
  (velocity : R) (fwhms : fwhms_arg) (wavelengths spectra noise lines : vector)
  (line_type : string) (voigt_gamma : R) (get_amp : bool) :
  solver_contract N ->
  lines <> [] -> (2 <= length wavelengths)%nat ->
  fwhms_match fwhms lines -> known_line_type line_type ->
  length spectra = length wavelengths ->
  length noise = length wavelengths ->
  exists (A Aw : matrix) (bw : vector),
    length A = length wavelengths
    /\ length (hd [] Aw) = (length lines + 2)%nat
    /\ fst (run_fit (best_linear_fit_model velocity fwhms wavelengths
                       spectra noise lines line_type voigt_gamma get_amp))
       = match lstsq Aw bw with
         | Ok c => Ok (fit_value get_amp (map (fun row => dot row c) A) c)
         | Raise LinAlgError =>
             match nnls Aw bw with
             | Ok c =>
                 Ok (fit_value get_amp (map (fun row => dot row c) A) c)
             | Raise e => Raise e
             end
         | Raise e => Raise e
         end.
Proof.
  intros HC Hne Hx Hm Hk Hs Hn.
  destruct (UtilProps.line_models_returns velocity fwhms wavelengths lines
              line_type voigt_gamma Hne Hx Hm Hk) as [per_line [E [Hlen F]]].
  set (models := per_line ++ [repeat 1 (length wavelengths);
                              arange (length wavelengths)]) in *.
  assert (Hhd : length (hd [] models) = length noise).
  { rewrite Hn. unfold models.
    destruct F as [| p m ps ms [_ L] F]; [apply repeat_length | exact L]. }
  pose proof (UtilProps.best_linear_fit_model_run velocity fwhms wavelengths
                spectra noise lines line_type voigt_gamma get_amp models E
                Hhd (eq_trans Hs (eq_sym Hn))) as Hrun.
  cbv zeta in Hrun.
  set (A := transpose models) in *.
  assert (HA : length A = length wavelengths)
    by (unfold A; now rewrite UtilProps.transpose_length, Hhd, Hn).
  assert (Hk' : length (hd [] (weigh_rows A noise)) = length models).
  { apply UtilProps.weigh_rows_hd; [apply UtilProps.transpose_rows | |].
    - intro H0. rewrite H0 in HA. simpl in HA. lia.
    - intros H0. rewrite H0 in Hn. simpl in Hn. lia. }
  assert (Lm : length models = (length lines + 2)%nat)
    by (unfold models; rewrite length_app, Hlen; reflexivity).
  exists A, (weigh_rows A noise), (weigh spectra noise).
  split; [exact HA |]. split; [now rewrite Hk' |].
  rewrite Hrun. clear Hrun.
  assert (Hmv : forall c,
            length c = length (hd [] (weigh_rows A noise)) ->
            matvec A c = Ok (map (fun row => dot row c) A)).
  { intros c Hc. apply UtilProps.matvec_returns.
    rewrite Hc, Hk'. apply UtilProps.transpose_rows. }
  destruct (lstsq _ _) as [c | e] eqn:EL.
  - cbn [fst]. now rewrite (Hmv c (lstsq_shape N HC _ _ _ EL)).
  - destruct e; cbn [fst]; try reflexivity.
    destruct (nnls _ _) as [c | e] eqn:EN; cbn [rbind]; [| reflexivity].
    now rewrite (Hmv c (nnls_shape N HC _ _ _ EN)).
Qed.

(** X15: a fit that returns, returns one model value per pixel and, when
    [get_amp] is set, one coefficient per line plus two for the continuum;
    without [get_amp] no coefficients are returned. *)
Theorem X15_fit_output_shapes
  (velocity : R) (fwhms : fwhms_arg) (wavelengths spectra noise lines : vector)
  (line_type : string) (voigt_gamma : R) (get_amp : bool)
  (line_model : vector) (returned_coeffs : option vector) :
  solver_contract N ->
  lines <> [] -> (2 <= length wavelengths)%nat ->
  fwhms_match fwhms lines -> known_line_type line_type ->
  length spectra = length wavelengths ->
  length noise = length wavelengths ->
  fst (run_fit (best_linear_fit_model velocity fwhms wavelengths spectra
                  noise lines line_type voigt_gamma get_amp))
  = Ok (line_model, returned_coeffs) ->
  length line_model = length wavelengths
  /\ exists coeffs,
       length coeffs = (length lines + 2)%nat
       /\ returned_coeffs = if get_amp then Some coeffs else None.
Proof.
  intros HC Hne Hx Hm Hk Hs Hn.
  destruct (fit_outcome velocity fwhms wavelengths spectra noise lines
              line_type voigt_gamma get_amp HC Hne Hx Hm Hk Hs Hn)
    as [A [Aw [bw [HA [Hcols ->]]]]].
  assert (Hfin : forall c,
            length c = length (hd [] Aw) ->
            Ok (fit_value get_amp (map (fun row => dot row c) A) c)
            = Ok (line_model, returned_coeffs) ->
            length line_model = length wavelengths
            /\ exists coeffs,
                 length coeffs = (length lines + 2)%nat
                 /\ returned_coeffs = if get_amp then Some coeffs else None).
  { intros c Hc H. unfold fit_value in H. inversion H; subst.
    split; [now rewrite length_map |].
    exists c. split; [now rewrite Hc | reflexivity]. }
  destruct (lstsq Aw bw) as [c | e] eqn:EL.
  - apply Hfin. exact (lstsq_shape N HC _ _ _ EL).
  - destruct e; try discriminate.
    destruct (nnls Aw bw) as [c | e] eqn:EN; [| discriminate].
    apply Hfin. exact (nnls_shape N HC _ _ _ EN).
Qed.

End Shapes.

Lemma X15_witness :
  exists line_model returned_coeffs,
    (solver_contract example_numerics
     /\ example_lines <> [] /\ (2 <= length example_wavelengths)%nat
     /\ fwhms_match (FwhmFloat 3) example_lines
     /\ known_line_type "gaussian"
     /\ length example_spectra = length example_wavelengths
     /\ length example_noise = length example_wavelengths
     /\ fst (run_fit (@best_linear_fit_model example_numerics 100
                        (FwhmFloat 3) example_wavelengths example_spectra
                        example_noise example_lines "gaussian" 1 true))
        = Ok (line_model, returned_coeffs))
    /\ length line_model = length example_wavelengths
    /\ exists coeffs,
         length coeffs = (length example_lines + 2)%nat
         /\ returned_coeffs = Some coeffs.
Proof.
  assert (H1 : example_lines <> []) by discriminate.
  assert (H2 : (2 <= length example_wavelengths)%nat) by (simpl; lia).
  assert (H3 : known_line_type "gaussian") by now left.
  destruct (@fit_outcome example_numerics 100 (FwhmFloat 3)
              example_wavelengths example_spectra example_noise example_lines
              "gaussian" 1 true UtilProps.example_numerics_contract H1 H2 I
              H3 eq_refl eq_refl) as [A [Aw [bw [_ [_ Hout]]]]].
  cbn [lstsq nnls example_numerics] in Hout.
  do 2 eexists. split.
  - split; [exact UtilProps.example_numerics_contract |].
    split; [exact H1 |]. split; [exact H2 |]. split; [exact I |].
    split; [exact H3 |]. split; [reflexivity |]. split; [reflexivity |].
    exact Hout.
  - exact (@X15_fit_output_shapes example_numerics 100 (FwhmFloat 3)
             example_wavelengths example_spectra example_noise example_lines
             "gaussian" 1 true _ _ UtilProps.example_numerics_contract H1 H2
             I H3 eq_refl eq_refl Hout).
Defined.

(** ** Segment cut *)

(** X16: the cut raises [IndexError] exactly when the wavelength array is
    not empty and the flux or the noise array is not as long as it, and
    raises nothing else: the mask is built from the wavelengths and must fit
    each array it indexes.  On an empty wavelength array the mask has length
    zero, which numpy takes on arrays of any length: three empty arrays are
    returned. *)
Theorem X16_cut_refuses_unparallel_arrays
  (start end_ : R) (wavelengths spectra_1d noise_1d : vector) :
  (get_spectra_cuts start end_ wavelengths spectra_1d noise_1d
   = Raise IndexError
   <-> wavelengths <> []
       /\ (length spectra_1d <> length wavelengths
           \/ length noise_1d <> length wavelengths))
  /\ (wavelengths = [] ->
      get_spectra_cuts start end_ wavelengths spectra_1d noise_1d
      = Ok ([], [], []))
  /\ forall e,
       get_spectra_cuts start end_ wavelengths spectra_1d noise_1d = Raise e ->
       e = IndexError.
Proof.
  unfold get_spectra_cuts, bool_index. cbv zeta.
  destruct wavelengths as [| w ws].
  - cbn [map length]. rewrite !Bool.orb_true_r. cbn [rbind compress].
    split; [split; [discriminate | now intros [H _]] |].
    split; [reflexivity | discriminate].
  - set (wavelengths := w :: ws).
    assert (Hne : wavelengths <> []) by discriminate.
    assert (H0 : (length wavelengths =? 0)%nat = false) by reflexivity.
    rewrite !length_map, H0, !Bool.orb_false_r, Nat.eqb_refl. cbn [rbind].
    clearbody wavelengths.
    destruct (Nat.eqb_spec (length wavelengths) (length spectra_1d))
      as [Es | Es]; cbn [rbind];
      [destruct (Nat.eqb_spec (length wavelengths) (length noise_1d))
         as [En | En]; cbn [rbind] |].
    + split; [split; [discriminate | intros [_ [H | H]]; congruence] |].
      split; [intros ->; now destruct Hne | discriminate].
    + split; [split; [intros _; split; [exact Hne | right; congruence]
                     | reflexivity] |].
      split; [intros ->; now destruct Hne |].
      intros e H. now inversion H.
    + split; [split; [intros _; split; [exact Hne | left; congruence]
                     | reflexivity] |].
      split; [intros ->; now destruct Hne |].
      intros e H. now inversion H.
Qed.

Lemma Rltb_Rmax (a b w : R) : Rltb (Rmax a b) w = Rltb a w && Rltb b w.
Proof.
  apply Bool.eq_true_iff_eq.
  rewrite andb_true_iff, !UtilProps.Rltb_lt.
  unfold Rmax. destruct (Rle_dec a b); lra.
Qed.

Lemma Rltb_Rmin (a b w : R) : Rltb w (Rmin a b) = Rltb w a && Rltb w b.
Proof.
  apply Bool.eq_true_iff_eq.
  rewrite andb_true_iff, !UtilProps.Rltb_lt.
  unfold Rmin. destruct (Rle_dec a b); lra.
Qed.

(** Masking what a mask kept is masking with both tests. *)
Lemma compress_compress (k1 k2 : R -> bool) (ws xs : vector) :
  length xs = length ws ->
  compress (map k2 (compress (map k1 ws) ws)) (compress (map k1 ws) xs)
  = compress (map (fun w => k1 w && k2 w) ws) xs.
Proof.
  revert xs. induction ws as [| w ws IH]; intros [| x xs] H;
    try discriminate; [reflexivity |].
  cbn [map compress]. destruct (k1 w); cbn [map compress andb].
  - destruct (k2 w); now rewrite IH by (now inversion H).
  - apply IH. now inversion H.
Qed.

(** X17: cuts compose.  Cutting the result of a cut with a second window is
    cutting the input once with the intersection of the two windows, so a
    cut repeated with its own window changes nothing. *)
Theorem X17_cuts_compose
  (start_1 end_1 start_2 end_2 : R) (wavelengths spectra_1d noise_1d : vector) :
  length spectra_1d = length wavelengths ->
  length noise_1d = length wavelengths ->
  exists w1 s1 n1,
    get_spectra_cuts start_1 end_1 wavelengths spectra_1d noise_1d
    = Ok (w1, s1, n1)
    /\ get_spectra_cuts start_2 end_2 w1 s1 n1
       = get_spectra_cuts (Rmax start_1 start_2) (Rmin end_1 end_2)
           wavelengths spectra_1d noise_1d
    /\ get_spectra_cuts start_1 end_1 w1 s1 n1 = Ok (w1, s1, n1).
Proof.
  intros Hs Hn.
  set (k1 := fun w => Rltb start_1 w && Rltb w end_1).
  exists (compress (map k1 wavelengths) wavelengths),
         (compress (map k1 wavelengths) spectra_1d),
         (compress (map k1 wavelengths) noise_1d).
  assert (Hcut : forall s e ws xs ys,
            length xs = length ws -> length ys = length ws ->
            get_spectra_cuts s e ws xs ys
            = Ok (compress (map (fun w => Rltb s w && Rltb w e) ws) ws,
                  compress (map (fun w => Rltb s w && Rltb w e) ws) xs,
                  compress (map (fun w => Rltb s w && Rltb w e) ws) ys)).
  { intros s e ws xs ys Hx Hy. unfold get_spectra_cuts, bool_index.
    cbv zeta. now rewrite length_map, Hx, Hy, Nat.eqb_refl. }
  pose proof (UtilProps.compress_length k1 wavelengths spectra_1d Hs) as Ls.
  pose proof (UtilProps.compress_length k1 wavelengths noise_1d Hn) as Ln.
  assert (Hboth : forall s e xs,
            length xs = length wavelengths ->
            compress
              (map (fun w => Rltb s w && Rltb w e)
                 (compress (map k1 wavelengths) wavelengths))
              (compress (map k1 wavelengths) xs)
            = compress
                (map (fun w => Rltb (Rmax start_1 s) w
                               && Rltb w (Rmin end_1 e)) wavelengths) xs).
  { intros s e xs Hx. rewrite compress_compress by exact Hx.
    f_equal. apply map_ext. intro w. unfold k1.
    rewrite Rltb_Rmax, Rltb_Rmin.
    destruct (Rltb start_1 w), (Rltb w end_1), (Rltb s w), (Rltb w e);
      reflexivity. }
  split; [now apply Hcut |]. split.
  - rewrite !Hcut by assumption.
    now rewrite !Hboth by auto.
  - rewrite Hcut by assumption.
    rewrite !Hboth by auto.
    assert (Eid : forall xs,
              compress
                (map (fun w => Rltb (Rmax start_1 start_1) w
                               && Rltb w (Rmin end_1 end_1)) wavelengths) xs
              = compress (map k1 wavelengths) xs).
    { intro xs. f_equal. apply map_ext. intro w. unfold k1.
      rewrite Rltb_Rmax, Rltb_Rmin.
      destruct (Rltb start_1 w), (Rltb w end_1); reflexivity. }
    now rewrite !Eid.
Qed.

Lemma X17_witness :
  (length example_spectra = length example_wavelengths
   /\ length example_noise = length example_wavelengths)
  /\ exists w1 s1 n1,
    get_spectra_cuts 6545 6575 example_wavelengths example_spectra
      example_noise = Ok (w1, s1, n1)
    /\ get_spectra_cuts 6555 6600 w1 s1 n1
       = get_spectra_cuts (Rmax 6545 6555) (Rmin 6575 6600)
           example_wavelengths example_spectra example_noise
    /\ get_spectra_cuts 6545 6575 w1 s1 n1 = Ok (w1, s1, n1).
Proof.
  split; [split; reflexivity |].
  exact (X17_cuts_compose 6545 6575 6555 6600 example_wavelengths
           example_spectra example_noise eq_refl eq_refl).
Defined.

Lemma X16_witness :
  (example_wavelengths <> []
   /\ (length [1; 2] <> length example_wavelengths
       \/ length example_noise <> length example_wavelengths))
  /\ get_spectra_cuts 6545 6575 example_wavelengths [1; 2] example_noise
     = Raise IndexError
  /\ get_spectra_cuts 6545 6575 [] [1; 2] example_noise = Ok ([], [], []).
Proof.
  assert (H : example_wavelengths <> []
              /\ (length [1; 2] <> length example_wavelengths
                  \/ length example_noise <> length example_wavelengths))
    by (split; [discriminate | left; discriminate]).
  split; [exact H |]. split.
  - exact (proj2 (proj1 (X16_cut_refuses_unparallel_arrays 6545 6575
                           example_wavelengths [1; 2] example_noise)) H).
  - exact (proj1 (proj2 (X16_cut_refuses_unparallel_arrays 6545 6575
                           [] [1; 2] example_noise)) eq_refl).
Defined.

Section Slice.
Variables start end_ : R.

Let keep (w : R) : bool := Rltb start w && Rltb w end_.

Lemma mask_past_end (ws : vector) :
  Forall (fun w => end_ <= w) ws ->
  map keep ws = repeat false (length ws).
Proof.
  induction 1 as [| w ws Hw H IH]; [reflexivity |].
  cbn [map length repeat]. rewrite IH. f_equal.
  unfold keep, Rltb. destruct (Rlt_dec w end_); [lra |].
  now rewrite andb_false_r.
Qed.

Lemma mask_inside_then_past (ws : vector) :
  StronglySorted Rlt ws -> Forall (fun w => start < w) ws ->
  exists j k, map keep ws = repeat true j ++ repeat false k.
Proof.
  induction 1 as [| w ws Hs IH Hw]; intro Hin.
  - now exists 0%nat, 0%nat.
  - inversion Hin as [| ? ? Hw0 Hin']; subst.
    destruct (Rlt_dec w end_) as [Hlt | Hge].
    + destruct (IH Hin') as [j [k E]]. exists (S j), k.
      cbn [map repeat app]. rewrite E. f_equal.
      unfold keep, Rltb.
      destruct (Rlt_dec start w); [| lra].
      destruct (Rlt_dec w end_); [reflexivity | lra].
    + exists 0%nat, (S (length ws)).
      apply (mask_past_end (w :: ws)). constructor; [lra |].
      eapply Forall_impl; [| exact Hw]. intros a Ha. simpl in Ha. lra.
Qed.

(** On increasing wavelengths the mask is a run of [true] between two runs
    of [false]. *)
Lemma mask_of_increasing (ws : vector) :
  StronglySorted Rlt ws ->
  exists i j k,
    map keep ws = repeat false i ++ repeat true j ++ repeat false k.
Proof.
  induction 1 as [| w ws Hs IH Hw].
  - now exists 0%nat, 0%nat, 0%nat.
  - destruct (Rlt_dec start w) as [Hlt | Hle].
    + destruct (mask_inside_then_past (w :: ws)) as [j [k E]].
      * now constructor.
      * constructor; [exact Hlt |].
        eapply Forall_impl; [| exact Hw]. intros a Ha. simpl in Ha. lra.
      * now exists 0%nat, j, k.
    + destruct IH as [i [j [k E]]]. exists (S i), j, k.
      cbn [map repeat app]. rewrite E. f_equal.
      unfold keep, Rltb. destruct (Rlt_dec start w); [lra | reflexivity].
Qed.

Lemma compress_run (i j k : nat) (x : vector) :
  compress (repeat false i ++ repeat true j ++ repeat false k) x
  = firstn j (skipn i x).
Proof.
  revert x. induction i as [| i IHi]; intro x.
  - cbn [repeat app skipn]. revert x. induction j as [| j IHj]; intro x.
    + cbn [repeat app firstn]. revert x.
      induction k as [| k IHk]; intros [| v x]; simpl; auto.
    + destruct x as [| v x]; [reflexivity |].
      cbn [repeat app compress firstn]. now rewrite IHj.
  - destruct x as [| v x]; [now destruct j |].
    cbn [repeat app compress skipn]. apply IHi.
Qed.

(** X18: on strictly increasing wavelengths the cut is a slice: there are a
    first pixel [i] and a pixel count [j] such that each of the three
    returned arrays is the run of [j] entries from entry [i] of its input. *)
Theorem X18_cut_of_increasing_grid_is_slice
  (wavelengths spectra_1d noise_1d : vector) :
  StronglySorted Rlt wavelengths ->
  length spectra_1d = length wavelengths ->
  length noise_1d = length wavelengths ->
  exists i j,
    get_spectra_cuts start end_ wavelengths spectra_1d noise_1d
    = Ok (firstn j (skipn i wavelengths),
          firstn j (skipn i spectra_1d),
          firstn j (skipn i noise_1d)).
Proof.
  intros Hsorted Hs Hn.
  destruct (mask_of_increasing wavelengths Hsorted) as [i [j [k E]]].
  exists i, j.
  unfold get_spectra_cuts, bool_index. cbv zeta. fold keep.
  rewrite length_map, Nat.eqb_refl, Hs, Hn, Nat.eqb_refl. cbn [rbind].
  now rewrite E, !compress_run.
Qed.

End Slice.

Lemma example_wavelengths_increasing : StronglySorted Rlt example_wavelengths.
Proof.
  unfold example_wavelengths. repeat constructor; lra.
Qed.

Lemma X18_witness :
  (StronglySorted Rlt example_wavelengths
   /\ length example_spectra = length example_wavelengths
   /\ length example_noise = length example_wavelengths)
  /\ exists i j,
       get_spectra_cuts 6555 6575 example_wavelengths example_spectra
         example_noise
       = Ok (firstn j (skipn i example_wavelengths),
             firstn j (skipn i example_spectra),
             firstn j (skipn i example_noise)).
Proof.
  split.
  - split; [exact example_wavelengths_increasing | split; reflexivity].
  - exact (X18_cut_of_increasing_grid_is_slice 6555 6575 example_wavelengths
             example_spectra example_noise example_wavelengths_increasing
             eq_refl eq_refl).
Defined.

(** ** Coupled two-spectrum solver *)

Lemma dot_app (u u' v v' : vector) :
  length u = length v ->
  dot (u ++ u') (v ++ v') = dot u v + dot u' v'.
Proof.
  unfold dot, np_sum. revert v.
  induction u as [| a u IH]; intros [| b v] H; try discriminate.
  - simpl. ring.
  - cbn [app map2 fold_right]. rewrite IH by (now inversion H). ring.
Qed.

Lemma split_last_two (c : vector) (L : nat) :
  length c = (L + 2)%nat ->
  c = firstn L c ++ [nth L c 0; nth (S L) c 0].
Proof.
  revert c. induction L as [| L IH]; intros c H.
  - destruct c as [| a [| b [| ? ?]]]; try discriminate. reflexivity.
  - destruct c as [| a c]; [discriminate |].
    cbn [firstn app nth]. f_equal. apply IH. now inversion H.
Qed.

Section CoupledDesign.
Context {N : Numerics}.

Lemma simultaneous_loop_same_inputs
  (velocity : R) (wavelengths : vector) (triples : list (R * R * R))
  (ms1 ms2 : list vector) :
  Forall (fun t => fst (fst t) = snd (fst t)) triples ->
  simultaneous_loop velocity velocity wavelengths wavelengths triples
  = Ok (ms1, ms2) ->
  ms1 = ms2.
Proof.
  intro Hsame. revert ms1 ms2.
  induction Hsame as [| [[f1 f2] line] rest Hf Hrest IH]; intros ms1 ms2 H.
  - now inversion H.
  - simpl in Hf. subst f2. cbn [simultaneous_loop] in H.
    destruct (get_spectra_model wavelengths _ f1 1 0 0 "gaussian" 1.0)
      as [m |]; [| discriminate]. cbn [rbind] in H.
    destruct (simultaneous_loop velocity velocity wavelengths wavelengths
                rest) as [[r1 r2] |]; [| discriminate].
    cbn [rbind fst snd] in H. inversion H; subst.
    f_equal. now apply IH.
Qed.

(** X19: the second stage contains the first.  When both spectra share
    velocity, widths and grid, the two lists of line models coincide, and
    the design matrix of spectrum 2 reproduces the model of spectrum 1
    exactly at scale 1 with the constant and ramp coefficients of
    spectrum 1, whatever those coefficients are. *)
Theorem X19_coupled_design_reproduces_first_fit
  (velocity : R) (fwhms wavelengths lines coeffs : vector) :
  (2 <= length wavelengths)%nat -> fwhms <> [] -> lines <> [] ->
  length coeffs = (Nat.min (length fwhms) (length lines) + 2)%nat ->
  exists ms line_model_1 template,
    simultaneous_loop velocity velocity wavelengths wavelengths
      (combine (combine fwhms fwhms) lines)
    = Ok (ms, ms)
    /\ matvec
         (transpose (ms ++ [repeat 1 (length wavelengths);
                            arange (length wavelengths)])) coeffs
       = Ok line_model_1
    /\ matvec (transpose ms) (drop_last_two coeffs) = Ok template
    /\ matvec (design_matrix_2 template)
         [1; nth (length ms) coeffs 0; nth (S (length ms)) coeffs 0]
       = Ok line_model_1.
Proof.
  intros Hx Hf Hl Hc.
  set (triples := combine (combine fwhms fwhms) lines).
  destruct (UtilProps.simultaneous_loop_returns velocity velocity
              wavelengths wavelengths triples Hx Hx)
    as [ms1 [ms2 [E [L1 [_ [F1 _]]]]]].
  assert (Hsame : Forall (fun t => fst (fst t) = snd (fst t)) triples).
  { unfold triples. clear. revert lines.
    induction fwhms as [| f fs IH]; intros [| l ls]; simpl; constructor;
      auto. }
  pose proof (simultaneous_loop_same_inputs velocity wavelengths triples
                ms1 ms2 Hsame E) as <-.
  assert (Lt : length triples = Nat.min (length fwhms) (length lines)).
  { unfold triples. rewrite !length_combine. lia. }
  rewrite Lt in L1. rewrite <- L1 in Hc.
  assert (Hne : ms1 <> []).
  { intros ->. simpl in L1.
    destruct fwhms; [easy |]. destruct lines; [easy |]. discriminate L1. }
  set (n := length wavelengths) in *.
  assert (Hhd : length (hd [] ms1) = n).
  { destruct ms1 as [| m ms]; [easy |]. simpl. now inversion F1. }
  set (c_lines := firstn (length ms1) coeffs).
  assert (Hd : drop_last_two coeffs = c_lines).
  { unfold drop_last_two, c_lines. f_equal. lia. }
  assert (Lc : length c_lines = length ms1).
  { unfold c_lines. rewrite length_firstn. lia. }
  exists ms1. do 2 eexists.
  split; [exact E |].
  split.
  { apply UtilProps.matvec_returns.
    rewrite Hc. replace (length ms1 + 2)%nat
      with (length (ms1 ++ [repeat 1 n; arange n]))
      by (rewrite length_app; reflexivity).
    apply UtilProps.transpose_rows. }
  split.
  { rewrite Hd. apply UtilProps.matvec_transpose. exact Lc. }
  rewrite Hhd.
  set (template := map _ (seq 0 n)).
  assert (Ltm : length template = n)
    by (unfold template; now rewrite length_map, length_seq).
  rewrite UtilProps.design_matrix_2_rows, Ltm.
  rewrite UtilProps.matvec_returns.
  2:{ apply Forall_forall. intros row Hin. apply in_map_iff in Hin.
      now destruct Hin as [i [<- _]]. }
  f_equal. rewrite map_map. unfold transpose.
  replace (hd [] (ms1 ++ [repeat 1 n; arange n])) with (hd [] ms1)
    by (destruct ms1; [easy | reflexivity]).
  rewrite Hhd, map_map. apply map_ext_in. intros i Hi.
  apply in_seq in Hi.
  rewrite map_app. cbn [map].
  replace (nth i (repeat 1 n) 0) with 1 by (symmetry; apply nth_repeat_lt; lia).
  rewrite UtilProps.nth_arange by lia.
  pose proof (split_last_two coeffs (length ms1) Hc) as Hsplit.
  fold c_lines in Hsplit.
  set (cL := nth (length ms1) coeffs 0) in *.
  set (cR := nth (S (length ms1)) coeffs 0) in *.
  rewrite Hsplit.
  rewrite dot_app by (now rewrite length_map).
  unfold template.
  rewrite (nth_indep _ 0 ((fun i0 => dot (map (fun m => nth i0 m 0) ms1)
                                       c_lines) 0%nat))
    by (rewrite length_map, length_seq; lia).
  rewrite (map_nth (fun i0 => dot (map (fun m => nth i0 m 0) ms1) c_lines)),
    seq_nth by lia.
  unfold dot, np_sum. simpl. ring.
Qed.

(** X20: bad input stops the coupled fit before any solver is called.  For
    widths given as floats or sequences: with no line, or an empty sequence
    of widths for either spectrum, the loop runs no iteration and
    [UnboundLocalError] is raised; otherwise a grid of fewer than two
    pixels, for either spectrum, raises [IndexError].  A width given as an
    integer, for either spectrum, is not expanded and [zip] raises
    [TypeError] on it. *)
Theorem X20_coupled_bad_input_calls_no_solver
  (velocity_1 : R) (fwhms_1 : fwhms_arg) (velocity_2 : R)
  (fwhms_2 : fwhms_arg)
  (wavelengths_1 spectra_1 noise_1 wavelengths_2 spectra_2 noise_2
     lines : vector) :
  let out :=
    run_fit (best_linear_fit_model_simultaneous velocity_1 fwhms_1
               velocity_2 fwhms_2 wavelengths_1 spectra_1 noise_1
               wavelengths_2 spectra_2 noise_2 lines) in
  (float_or_sequence fwhms_1 -> float_or_sequence fwhms_2 ->
   (lines = [] \/ fwhms_1 = FwhmSeq [] \/ fwhms_2 = FwhmSeq [] ->
    out = (Raise UnboundLocalError, []))
   /\ (lines <> [] -> fwhms_1 <> FwhmSeq [] -> fwhms_2 <> FwhmSeq [] ->
       (length wavelengths_1 < 2)%nat \/ (length wavelengths_2 < 2)%nat ->
       out = (Raise IndexError, [])))
  /\ ((exists n : Z, fwhms_1 = FwhmInt n)
      \/ (exists n : Z, fwhms_2 = FwhmInt n) ->
      out = (Raise TypeError, [])).
Proof.
  cbv zeta.
  unfold run_fit, best_linear_fit_model_simultaneous, fit_bind, fit_lift.
  cbv zeta.
  split;
    [| intros [[n ->] | [n ->]]; [| destruct fwhms_1]; reflexivity].
  intros Hf1 Hf2.
  rewrite (UtilProps.iter_expand_fwhms fwhms_1 lines Hf1).
  rewrite (UtilProps.iter_expand_fwhms fwhms_2 lines Hf2).
  cbv beta iota. split.
  - intro H.
    assert (E : combine (combine (widths_of fwhms_1 lines)
                           (widths_of fwhms_2 lines)) lines = []).
    { destruct H as [-> | [-> | ->]].
      - apply combine_nil.
      - reflexivity.
      - cbn [widths_of]. now destruct (widths_of fwhms_1 lines). }
    rewrite E. reflexivity.
  - intros Hl H1 H2 Hshort.
    pose proof (expand_fwhms_nonempty fwhms_1 lines Hf1 H1 Hl) as E1.
    pose proof (expand_fwhms_nonempty fwhms_2 lines Hf2 H2 Hl) as E2.
    destruct (widths_of fwhms_1 lines) as [| f1 fs1]; [easy |].
    destruct (widths_of fwhms_2 lines) as [| f2 fs2]; [easy |].
    destruct lines as [| line lines]; [easy |].
    cbn [combine simultaneous_loop].
    destruct (le_lt_dec 2 (length wavelengths_1)) as [Hok | Hbad].
    + destruct Hshort as [Hbad | Hbad]; [lia |].
      destruct (UtilProps.get_spectra_model_returns wavelengths_1
                  (line * (1 + velocity_1 / light_speed)) f1 1 0 0
                  "gaussian" 1.0 Hok (or_introl eq_refl)) as [m [-> _]].
      cbn [rbind].
      now rewrite (get_spectra_model_short_grid wavelengths_2
                     (line * (1 + velocity_2 / light_speed)) f2 1 0 0
                     "gaussian" 1.0 (or_introl eq_refl) Hbad).
    + now rewrite (get_spectra_model_short_grid wavelengths_1
                     (line * (1 + velocity_1 / light_speed)) f1 1 0 0
                     "gaussian" 1.0 (or_introl eq_refl) Hbad).
Qed.

End CoupledDesign.

Lemma X19_witness :
  ((2 <= length example_wavelengths)%nat /\ [3; 4] <> []
   /\ example_lines <> []
   /\ length [2; 3; 0.5; 0.1]
      = (Nat.min (length [3; 4]) (length example_lines) + 2)%nat)
  /\ exists ms line_model_1 template,
    @simultaneous_loop example_numerics 100 100 example_wavelengths
      example_wavelengths (combine (combine [3; 4] [3; 4]) example_lines)
    = Ok (ms, ms)
    /\ matvec
         (transpose (ms ++ [repeat 1 (length example_wavelengths);
                            arange (length example_wavelengths)]))
         [2; 3; 0.5; 0.1]
       = Ok line_model_1
    /\ matvec (transpose ms) (drop_last_two [2; 3; 0.5; 0.1]) = Ok template
    /\ matvec (design_matrix_2 template)
         [1; nth (length ms) [2; 3; 0.5; 0.1] 0;
          nth (S (length ms)) [2; 3; 0.5; 0.1] 0]
       = Ok line_model_1.
Proof.
  assert (H1 : (2 <= length example_wavelengths)%nat) by (simpl; lia).
  assert (H2 : [3; 4] <> []) by discriminate.
  assert (H3 : example_lines <> []) by discriminate.
  assert (H4 : length [2; 3; 0.5; 0.1]
               = (Nat.min (length [3; 4]) (length example_lines) + 2)%nat)
    by reflexivity.
  split; [repeat split; assumption |].
  exact (@X19_coupled_design_reproduces_first_fit example_numerics 100
           [3; 4] example_wavelengths example_lines [2; 3; 0.5; 0.1] H1 H2
           H3 H4).
Defined.

Lemma X20_witness :
  (float_or_sequence (FwhmFloat 3) /\ float_or_sequence (FwhmFloat 4)
   /\ (@nil R = [] \/ FwhmFloat 3 = FwhmSeq [] \/ FwhmFloat 4 = FwhmSeq [])
   /\ example_lines <> [] /\ FwhmFloat 3 <> FwhmSeq []
   /\ FwhmFloat 4 <> FwhmSeq []
   /\ ((length example_wavelengths < 2)%nat \/ (length [6550%R] < 2)%nat)
   /\ ((exists n : Z, FwhmFloat 3 = FwhmInt n)
       \/ (exists n : Z, FwhmInt 4 = FwhmInt n)))
  /\ run_fit (@best_linear_fit_model_simultaneous example_numerics 100
                (FwhmFloat 3) 120 (FwhmFloat 4) example_wavelengths
                example_spectra example_noise example_wavelengths
                example_spectra example_noise [])
     = (Raise UnboundLocalError, [])
  /\ run_fit (@best_linear_fit_model_simultaneous example_numerics 100
                (FwhmFloat 3) 120 (FwhmFloat 4) example_wavelengths
                example_spectra example_noise [6550] [1] [0.5]
                example_lines)
     = (Raise IndexError, [])
  /\ run_fit (@best_linear_fit_model_simultaneous example_numerics 100
                (FwhmFloat 3) 120 (FwhmInt 4) example_wavelengths
                example_spectra example_noise example_wavelengths
                example_spectra example_noise example_lines)
     = (Raise TypeError, []).
Proof.
  assert (Hf1 : float_or_sequence (FwhmFloat 3)) by exact I.
  assert (Hf2 : float_or_sequence (FwhmFloat 4)) by exact I.
  assert (H0 : @nil R = [] \/ FwhmFloat 3 = FwhmSeq []
               \/ FwhmFloat 4 = FwhmSeq []) by now left.
  assert (H1 : example_lines <> []) by discriminate.
  assert (H2 : FwhmFloat 3 <> FwhmSeq []) by discriminate.
  assert (H3 : FwhmFloat 4 <> FwhmSeq []) by discriminate.
  assert (H4 : (length example_wavelengths < 2)%nat
               \/ (length [6550%R] < 2)%nat) by (right; simpl; lia).
  assert (H5 : (exists n : Z, FwhmFloat 3 = FwhmInt n)
               \/ (exists n : Z, FwhmInt 4 = FwhmInt n))
    by (right; now exists 4%Z).
  split; [repeat split; assumption |].
  split; [| split].
  - exact (proj1 (proj1 (@X20_coupled_bad_input_calls_no_solver
                           example_numerics 100 (FwhmFloat 3) 120
                           (FwhmFloat 4) example_wavelengths example_spectra
                           example_noise example_wavelengths example_spectra
                           example_noise []) Hf1 Hf2) H0).
  - exact (proj2 (proj1 (@X20_coupled_bad_input_calls_no_solver
                           example_numerics 100 (FwhmFloat 3) 120
                           (FwhmFloat 4) example_wavelengths example_spectra
                           example_noise [6550] [1] [0.5] example_lines)
                    Hf1 Hf2) H1 H2 H3 H4).
  - exact (proj2 (@X20_coupled_bad_input_calls_no_solver example_numerics
                    100 (FwhmFloat 3) 120 (FwhmInt 4) example_wavelengths
                    example_spectra example_noise example_wavelengths
                    example_spectra example_noise example_lines) H5).
Defined.

(** ** The Gaussian integral over a symmetric window *)

Lemma sqrt_two_pi : sqrt (2 * PI) = 2 * sqrt (PI / 2).
Proof.
  pose proof PI_RGT_0 as Hpi.
  replace (2 * PI) with ((2 * 2) * (PI / 2)) by field.
  rewrite sqrt_mult by lra. now rewrite sqrt_square by lra.
Qed.

(** X22: given that [erf] is odd, the Gaussian integral over a window
    symmetric about the centre is [sigma * sqrt (2 pi) * erf (k / (sqrt 2 *
    sigma))] with [sigma = fwhm / 2.355]; over one sigma either side of the
    centre, for [fwhm = 2.355], it is [sqrt (2 pi) * erf (1 / sqrt 2)], the
    value the import-time test of the module compares against. *)
Theorem X22_gaussian_symmetric_window {N : Numerics} (mu fwhm k : R) :
  (forall x, erf (- x) = - erf x) ->
  integrate_gaussian (mu - k) (mu + k) mu fwhm
  = fwhm / 2.355 * sqrt (2 * PI) * erf (k / (sqrt 2 * (fwhm / 2.355)))
  /\ integrate_gaussian (-1) 1 0 2.355 = sqrt (2 * PI) * erf (1 / sqrt 2).
Proof.
  intro Hodd.
  assert (Hsym : forall m f j,
            integrate_gaussian (m - j) (m + j) m f
            = f / 2.355 * sqrt (2 * PI)
              * erf (j / (sqrt 2 * (f / 2.355)))).
  { intros m f j. unfold integrate_gaussian. cbv zeta.
    replace (m + j - m) with j by ring.
    replace ((m - j - m) / (sqrt 2 * (f / 2.355)))
      with (- (j / (sqrt 2 * (f / 2.355)))) by (unfold Rdiv; ring).
    rewrite Hodd, sqrt_two_pi. replace 2.0 with 2 by lra. ring. }
  split; [apply Hsym |].
  replace (-1) with (0 - 1) by ring. replace 1 with (0 + 1) at 2 by ring.
  rewrite Hsym. replace (2.355 / 2.355) with 1 by (field; lra).
  rewrite Rmult_1_r, Rmult_1_l. reflexivity.
Qed.

Lemma X22_witness :
  (forall x, @erf example_numerics (- x) = - @erf example_numerics x)
  /\ @integrate_gaussian example_numerics (6562.8 - 5) (6562.8 + 5) 6562.8 3
     = 3 / 2.355 * sqrt (2 * PI)
       * @erf example_numerics (5 / (sqrt 2 * (3 / 2.355)))
  /\ @integrate_gaussian example_numerics (-1) 1 0 2.355
     = sqrt (2 * PI) * @erf example_numerics (1 / sqrt 2).
Proof.
  assert (Hodd : forall x,
            @erf example_numerics (- x) = - @erf example_numerics x).
  { intro x. simpl. rewrite atan_opp. ring. }
  split; [exact Hodd |].
  exact (@X22_gaussian_symmetric_window example_numerics 6562.8 3 5 Hodd).
Defined.

End UtilExtra.
